(** * Roll-decay estimators: a shallow embedding of the fitting engine

    The development follows [rolldecayestimators/estimator.py] (class
    [RollDecay]) and [rolldecayestimators/direct_estimator_cubic.py] (class
    [EstimatorCubic] and its three sub-variants).

    - numpy's float64 is Rocq's primitive binary64 [float];
    - a Python call either returns or raises: [res A] is [exn + A];
    - a [dict] with string keys is a [gmap string _], a [set] a [gset string];
    - a pandas frame is its index and its named columns;
    - scipy's [solve_ivp] and [least_squares] and numpy's [rfft] are
      collaborators this repository only calls: they are the fields of the
      class [Collaborators], and whatever a statement needs of them is one of
      its hypotheses;
    - the modules [equations], [symbols] and [substitute_dynamic_symbols] and
      the class [DirectEstimator] are used by the two files and not part of
      them: what is taken from them is the class [EquationLibrary]. *)

From Stdlib Require Import Floats ZArith Lia.
From stdpp Require Import gmap strings list fin_maps.

#[global] Set Warnings "-clear-no-such-hyp".

(** ** Python values, exceptions and the error monad *)

Inductive exn : Type :=
| ValueError (msg : string)
| TypeError (msg : string)
| KeyError (key : string)
| IndexError (msg : string)
| AttributeError (name : string)
| ZeroDivisionError
| AssertionError
| NotFittedError (attr : string)
| LibraryError (msg : string).

Definition res (A : Type) : Type := (exn + A)%type.

Definition ret {A} (a : A) : res A := inr a.
Definition raise {A} (e : exn) : res A := inl e.
Definition bind {A B} (c : res A) (k : A → res B) : res B :=
  match c with
  | inl e => inl e
  | inr a => k a
  end.

Notation "x <~ c ;; k" := (bind c (fun x => k))
  (at level 100, c at next level, right associativity).

(** [try: c except: h] with a bare [except] clause: every exception reaches
    the handler. *)
Definition try_except {A} (c : res A) (handler : exn → res A) : res A :=
  match c with
  | inl e => handler e
  | inr a => inr a
  end.

(** The value a call has returned, and [default] when it has raised. *)
Definition returned {A} (default : A) (c : res A) : A :=
  match c with inl _ => default | inr a => a end.

Fixpoint mapM {A B} (f : A → res B) (l : list A) : res (list B) :=
  match l with
  | [] => ret []
  | a :: l' => b <~ f a ;; bs <~ mapM f l' ;; ret (b :: bs)
  end.

(** A sequence subscript [a[i]] for [0 <= i]. *)
Definition seq_getitem {A} (a : list A) (i : nat) : res A :=
  match a !! i with
  | Some v => ret v
  | None => raise (IndexError "index out of range")
  end.

(** [a[-1]]. *)
Definition seq_getitem_last {A} (a : list A) : res A :=
  match last a with
  | Some v => ret v
  | None => raise (IndexError "index out of range")
  end.

(** [d[key]] on a dict. *)
Definition dict_getitem {A} (d : gmap string A) (key : string) : res A :=
  match d !! key with
  | Some v => ret v
  | None => raise (KeyError key)
  end.

(** [d.get(key, default)]. *)
Definition dict_get {A} (d : gmap string A) (key : string) (default : A) : A :=
  match d !! key with
  | Some v => v
  | None => default
  end.

(** [{key: x for key, x in zip(keys, xs)}]: later pairs win, as in Python. *)
Definition dict_of_zip {A} (keys : list string) (xs : list A) : gmap string A :=
  foldl (fun d kx => <[kx.1 := kx.2]> d) ∅ (zip keys xs).

(** A function made by [lambdify]: positional-or-keyword parameters with no
    defaults and no [**kwargs], and a numeric body. *)
Record PyFunction : Type := mkPyFunction {
  signature : list string;
  body : gmap string float → float
}.

(** Binding of a keyword-only call [f(k1=v1, ..., **kwargs)]: a key given both
    explicitly and through [**kwargs], a key outside the signature, and a
    parameter left without a value each raise [TypeError]. *)
Definition bind_arguments (f : PyFunction) (explicit : list (string * float))
    (kwargs : gmap string float) : res (gmap string float) :=
  if decide (Exists (fun kv => is_Some (kwargs !! kv.1)) explicit) then
    raise (TypeError "got multiple values for keyword argument")
  else
    let args := foldl (fun d kv => <[kv.1 := kv.2]> d) kwargs explicit in
    if decide (Exists (fun k => k ∉ signature f) (elements (dom args))) then
      raise (TypeError "got an unexpected keyword argument")
    else if decide (Exists (fun k => args !! k = None) (signature f)) then
      raise (TypeError "missing required argument")
    else ret args.

Definition call (f : PyFunction) (explicit : list (string * float))
    (kwargs : gmap string float) : res float :=
  args <~ bind_arguments f explicit kwargs ;;
  ret (body f args).

(** ** numpy *)

Module np.

Definition inf : float := infinity.
Definition pi : float := 0x1.921fb54442d18p+1%float.

Fixpoint float_of_nat (n : nat) : float :=
  match n with
  | O => 0%float
  | S n' => (float_of_nat n' + 1)%float
  end.

(** [np.diff(a)]: [a[i+1] - a[i]]. *)
Definition diff (a : list float) : list float :=
  zip_with (fun lo hi => (hi - lo)%float) a (tail a).

(** The order in which numpy adds up a contiguous float array. A block of
    fewer than eight elements is added from left to right, starting from
    [0.0]. A longer block is added with eight running sums, one for every
    eighth element; when fewer than eight elements are left the running sums
    are combined in pairs and the remaining elements are added one by one. *)
Fixpoint sum_unrolled (r0 r1 r2 r3 r4 r5 r6 r7 : float) (a : list float) : float :=
  match a with
  | a0 :: a1 :: a2 :: a3 :: a4 :: a5 :: a6 :: a7 :: rest =>
      sum_unrolled (r0 + a0) (r1 + a1) (r2 + a2) (r3 + a3)
        (r4 + a4) (r5 + a5) (r6 + a6) (r7 + a7) rest
  | _ =>
      foldl PrimFloat.add (((r0 + r1) + (r2 + r3)) + ((r4 + r5) + (r6 + r7))) a
  end%float.

Definition sum_block (a : list float) : float :=
  match a with
  | a0 :: a1 :: a2 :: a3 :: a4 :: a5 :: a6 :: a7 :: rest =>
      sum_unrolled a0 a1 a2 a3 a4 a5 a6 a7 rest
  | _ => foldl PrimFloat.add 0%float a
  end.

(** An array of more than 128 elements is cut in two, the first part half as
    long, rounded down to a multiple of eight, and the sums of the two parts
    are added. Both parts are shorter than the array, so [fuel] equal to the
    array's length is never used up. *)
Fixpoint pairwise_sum (fuel : nat) (a : list float) : float :=
  match fuel with
  | S fuel' =>
      if Nat.ltb 128 (length a) then
        let n2 := length a / 2 - (length a / 2) mod 8 in
        (pairwise_sum fuel' (take n2 a) + pairwise_sum fuel' (drop n2 a))%float
      else sum_block a
  | O => sum_block a
  end.

(** [np.sum(a)] on a float array: the reduction starts from [0.0]. *)
Definition sum (a : list float) : float :=
  (0 + pairwise_sum (length a) a)%float.

(** [np.mean(a)]: the sum over the number of elements. The mean of an empty
    array is [nan]. *)
Definition mean (a : list float) : float :=
  (sum a / float_of_nat (length a))%float.

(** [np.argmax(a)] on a float array: the first maximum, a [nan] counting as
    maximal. *)
Fixpoint argmax_loop (mp : float) (max_ind i : nat) (rest : list float) : nat :=
  match rest with
  | [] => max_ind
  | v :: rest' =>
      if negb (v <=? mp)%float then
        if PrimFloat.is_nan v then i else argmax_loop v i (S i) rest'
      else argmax_loop mp max_ind (S i) rest'
  end.

Definition argmax (a : list float) : res nat :=
  match a with
  | [] => raise (ValueError "attempt to get argmax of an empty sequence")
  | v :: rest => ret (if PrimFloat.is_nan v then 0 else argmax_loop v 0 1 rest)
  end.

(** [np.fft.rfftfreq(n)] with the default spacing [d=1.0]:
    [arange(0, n//2 + 1) * (1.0/(n*d))]. *)
Definition rfftfreq (n : nat) : res (list float) :=
  match n with
  | O => raise ZeroDivisionError
  | _ =>
      let val := (1 / (float_of_nat n * 1))%float in
      ret (map (fun k => (float_of_nat k * val)%float) (seq 0 (n / 2 + 1)))
  end.

End np.

(** ** pandas *)

Module Series.
Record t : Type := mk { index : list float; values : list float }.

(** [a - b] for two series over the same index. *)
Definition sub (a b : t) : t :=
  mk (index a) (zip_with PrimFloat.sub (values a) (values b)).
End Series.

Module DataFrame.
Record t : Type := mk { index : list float; columns : gmap string (list float) }.

(** [pd.DataFrame(index=t)] *)
Definition empty (idx : list float) : t := mk idx ∅.

(** [df[key]] *)
Definition getitem (df : t) (key : string) : res Series.t :=
  match columns df !! key with
  | Some v => ret (Series.mk (index df) v)
  | None => raise (KeyError key)
  end.

(** [df[key] = scalar] *)
Definition setitem_scalar (df : t) (key : string) (v : float) : t :=
  mk (index df) (<[key := replicate (length (index df)) v]> (columns df)).

(** [df[key] = array] *)
Definition setitem_array (df : t) (key : string) (vs : list float) : res t :=
  if decide (length vs = length (index df)) then
    ret (mk (index df) (<[key := vs]> (columns df)))
  else raise (ValueError "Length of values does not match length of index").

(** [df.iloc[0][key]]: the row is taken first, then the column. *)
Definition iloc0_getitem (df : t) (key : string) : res float :=
  match index df with
  | [] => raise (IndexError "single positional indexer is out-of-bounds")
  | _ :: _ =>
      col <~ dict_getitem (columns df) key ;;
      seq_getitem col 0
  end.

(** [df[key].iloc[0]]: the column is taken first, then the row. *)
Definition getitem_iloc0 (df : t) (key : string) : res float :=
  s <~ getitem df key ;;
  match Series.values s with
  | [] => raise (IndexError "single positional indexer is out-of-bounds")
  | v :: _ => ret v
  end.
End DataFrame.

(** ** scipy's result objects and the collaborators *)

Module OdeResult.
Record t : Type := mk { success : bool; y : list (list float) }.
End OdeResult.

Module OptimizeResult.
Record t : Type := mk { x : list float; success : bool }.
End OptimizeResult.

(** What the repository calls and does not define:
    - [solve_ivp fun t_span y0 t_eval] is
      [scipy.integrate.solve_ivp(fun=..., t_span=..., y0=..., t_eval=...)];
      an exception of [fun] may come out of it;
    - [least_squares fun x0 bounds ftol max_nfev loss f_scale] is
      [scipy.optimize.least_squares];
    - [rfft_abs signal] is [np.abs(np.fft.rfft(signal))]. *)
Class Collaborators : Type := {
  solve_ivp : (float → list float → res (list float)) →
              float * float → list float → list float → res OdeResult.t;
  least_squares : (list float → res (list float)) → list float →
                  list float * list float → float → Z → string → float →
                  res OptimizeResult.t;
  rfft_abs : list float → res (list float)
}.

(** ** estimator.py: class RollDecay *)

Module RollDecay.

(** The instance attributes. [X], [result] and [parameters] exist only once
    [fit] has assigned them, the others from [__init__] on; [is_fitted_] is
    kept as an optional attribute because [check_is_fitted] asks whether it
    exists. [calculate_acceleration] is the class-level numeric function.
    The write-only scratch attribute [simulation_result] is left out: no
    method reads it back. *)
Record obj : Type := mk {
  calculate_acceleration : PyFunction;
  is_fitted_ : option bool;
  phi_key : string;
  phi1d_key : string;
  phi2d_key : string;
  y_key : string;
  boundaries : gmap string (list float);
  p0 : gmap string float;
  maxfev : Z;
  ftol : float;
  fit_method : string;
  omega_regression : bool;
  assert_success : bool;
  X : option DataFrame.t;
  result : option OptimizeResult.t;
  parameters : option (gmap string float)
}.

Definition set_y_key (self : obj) (v : string) : obj :=
  mk (calculate_acceleration self) (is_fitted_ self) (phi_key self)
     (phi1d_key self) (phi2d_key self) v (boundaries self) (p0 self)
     (maxfev self) (ftol self) (fit_method self) (omega_regression self)
     (assert_success self) (X self) (result self) (parameters self).

Definition set_fit_method_attr (self : obj) (v : string) : obj :=
  mk (calculate_acceleration self) (is_fitted_ self) (phi_key self)
     (phi1d_key self) (phi2d_key self) (y_key self) (boundaries self) (p0 self)
     (maxfev self) (ftol self) v (omega_regression self)
     (assert_success self) (X self) (result self) (parameters self).

Definition set_omega_regression (self : obj) (v : bool) : obj :=
  mk (calculate_acceleration self) (is_fitted_ self) (phi_key self)
     (phi1d_key self) (phi2d_key self) (y_key self) (boundaries self) (p0 self)
     (maxfev self) (ftol self) (fit_method self) v
     (assert_success self) (X self) (result self) (parameters self).

Definition set_assert_success (self : obj) (v : bool) : obj :=
  mk (calculate_acceleration self) (is_fitted_ self) (phi_key self)
     (phi1d_key self) (phi2d_key self) (y_key self) (boundaries self) (p0 self)
     (maxfev self) (ftol self) (fit_method self) (omega_regression self)
     v (X self) (result self) (parameters self).

Definition set_X (self : obj) (v : DataFrame.t) : obj :=
  mk (calculate_acceleration self) (is_fitted_ self) (phi_key self)
     (phi1d_key self) (phi2d_key self) (y_key self) (boundaries self) (p0 self)
     (maxfev self) (ftol self) (fit_method self) (omega_regression self)
     (assert_success self) (Some v) (result self) (parameters self).

Definition set_result (self : obj) (v : OptimizeResult.t) : obj :=
  mk (calculate_acceleration self) (is_fitted_ self) (phi_key self)
     (phi1d_key self) (phi2d_key self) (y_key self) (boundaries self) (p0 self)
     (maxfev self) (ftol self) (fit_method self) (omega_regression self)
     (assert_success self) (X self) (Some v) (parameters self).

Definition set_parameters (self : obj) (v : gmap string float) : obj :=
  mk (calculate_acceleration self) (is_fitted_ self) (phi_key self)
     (phi1d_key self) (phi2d_key self) (y_key self) (boundaries self) (p0 self)
     (maxfev self) (ftol self) (fit_method self) (omega_regression self)
     (assert_success self) (X self) (result self) (Some v).

Definition set_is_fitted_ (self : obj) (v : bool) : obj :=
  mk (calculate_acceleration self) (Some v) (phi_key self)
     (phi1d_key self) (phi2d_key self) (y_key self) (boundaries self) (p0 self)
     (maxfev self) (ftol self) (fit_method self) (omega_regression self)
     (assert_success self) (X self) (result self) (parameters self).

(** Reading an attribute that may not have been assigned yet. *)
Definition getattr {A} (a : option A) (name : string) : res A :=
  match a with
  | Some v => ret v
  | None => raise (AttributeError name)
  end.

(** [hasattr(self, name)] for the attribute names the class uses. *)
Definition hasattr (self : obj) (name : string) : bool :=
  if String.eqb name "is_fitted_" then bool_decide (is_Some (is_fitted_ self))
  else if String.eqb name "X" then bool_decide (is_Some (X self))
  else if String.eqb name "result" then bool_decide (is_Some (result self))
  else if String.eqb name "parameters" then bool_decide (is_Some (parameters self))
  else bool_decide (name ∈ ["phi_key"; "phi1d_key"; "phi2d_key"; "y_key";
                             "boundaries"; "p0"; "maxfev"; "ftol"; "fit_method";
                             "omega_regression"; "assert_success"]).

(** scikit-learn's [check_is_fitted(estimator, attributes)]: it raises
    [NotFittedError] unless the estimator has the named attribute; the
    attribute's value plays no part. *)
Definition check_is_fitted (self : obj) (attributes : string) : res unit :=
  if hasattr self attributes then ret tt else raise (NotFittedError attributes).

(** [set_fit_method]: the attribute [fit_method] is assigned before the
    method name is examined, so it keeps the new value when the call raises. *)
Definition set_fit_method (self : obj) (fit_method : string) : obj * res unit :=
  let self := set_fit_method_attr self fit_method in
  if String.eqb (RollDecay.fit_method self) "derivation" then
    (set_y_key self (phi2d_key self), ret tt)
  else if String.eqb (RollDecay.fit_method self) "integration" then
    (set_y_key self (phi_key self), ret tt)
  else (self, raise (ValueError "Unknown fit_mehod")).

(** [__init__]; [cls_acceleration] is the acceleration function of the class
    the object is made from. The defaults of the keyword arguments are the
    [default_] constants below. *)
Definition __init__ (cls_acceleration : PyFunction) (maxfev : Z)
    (bounds : gmap string (list float)) (ftol : float) (p0 : gmap string float)
    (fit_method : string) (omega_regression : bool) : res obj :=
  let self :=
    mk cls_acceleration (Some false) "phi" "phi1d" "phi2d" "phi2d" bounds p0
       maxfev ftol "" true true None None None in
  let '(self, r) := set_fit_method self fit_method in
  _ <~ r ;;
  let self := set_omega_regression self omega_regression in
  let self := set_assert_success self true in
  ret self.

Definition default_maxfev : Z := 4000.
Definition default_ftol : float := 0x1.79ca10c924223p-67%float.
Definition default_fit_method : string := "derivation".
Definition default_omega_regression : bool := true.

(** The [parameter_names] property. The order Python gives to the elements of
    a set is unspecified; here it is the order of [elements]. *)
Definition parameter_names (self : obj) : list string :=
  let remove := [phi_key self; phi1d_key self] in
  let remove := if negb (omega_regression self) then remove ++ ["omega0"] else remove in
  elements
    ((list_to_set (signature (calculate_acceleration self)) : gset string)
       ∖ list_to_set remove).

(** The [bounds] property; [bounds_of_key] is the body of its loop. *)
Definition bounds_of_key (self : obj) (key : string) : res (float * float) :=
  let boundaries := dict_get (boundaries self) key [(- np.inf)%float; np.inf] in
  if decide (length boundaries = 2) then
    lo <~ seq_getitem boundaries 0 ;;
    hi <~ seq_getitem boundaries 1 ;;
    ret (lo, hi)
  else raise AssertionError.

Definition bounds (self : obj) : res (list float * list float) :=
  bs <~ mapM (bounds_of_key self) (parameter_names self) ;;
  ret (bs.*1, bs.*2).

(** The [initial_guess] property. *)
Definition initial_guess (self : obj) : list float :=
  map (fun key => dict_get (p0 self) key 0.5%float) (parameter_names self).

(** [fft_omega0] (static). *)
Definition fft_omega0 (frequencies dft : list float) : res float :=
  index <~ np.argmax dft ;;
  natural_frequency <~ seq_getitem frequencies index ;;
  ret (2 * np.pi * natural_frequency)%float.

(** [fft] (static). *)
Definition fft {Σ : Collaborators} (series : Series.t) : res (list float * list float) :=
  let signal := Series.values series in
  let time := Series.index series in
  let number_of_samples := length signal in
  nondimensional_frequencies <~ np.rfftfreq number_of_samples ;;
  let dt := np.mean (np.diff time) in
  let fs := (1 / dt)%float in
  let frequencies := map (fun f => (f * fs)%float) nondimensional_frequencies in
  dft <~ rfft_abs signal ;;
  ret (frequencies, dft).

(** The [omega0] property: recomputed from [self.X] at every access. *)
Definition omega0 {Σ : Collaborators} (self : obj) : res float :=
  X <~ getattr (X self) "X" ;;
  series <~ DataFrame.getitem X "phi" ;;
  fd <~ fft series ;;
  fft_omega0 fd.1 fd.2.

(** [roll_decay_time_step]; [states] is [[phi, phi1d]]. *)
Definition roll_decay_time_step (self : obj) (t : float) (states : list float)
    (parameters : gmap string float) : res (list float) :=
  phi_old <~ seq_getitem states 0 ;;
  p_old <~ seq_getitem states 1 ;;
  let phi1d := p_old in
  phi2d <~ call (calculate_acceleration self)
             [("phi1d", p_old); ("phi", phi_old)] parameters ;;
  ret [phi1d; phi2d].

(** [_simulate]: the grid is shifted to start at zero, the solver is asked for
    the span [[t_[0], t_[-1]]] sampled at [t_], and the two rows of its [y]
    become the columns of a frame indexed by the caller's [t]. *)
Definition _simulate {Σ : Collaborators} (self : obj) (t : list float)
    (phi0 phi1d0 : float) (parameters : gmap string float) : res DataFrame.t :=
  let states0 := [phi0; phi1d0] in
  t0 <~ seq_getitem t 0 ;;
  let t_ := map (fun ti => (ti - t0)%float) t in
  ta <~ seq_getitem t_ 0 ;;
  tb <~ seq_getitem_last t_ ;;
  let t_span := (ta, tb) in
  simulation_result <~
    solve_ivp (fun τ states => roll_decay_time_step self τ states parameters)
      t_span states0 t_ ;;
  if negb (OdeResult.success simulation_result) then
    raise (ValueError "Simulation failed")
  else
    let df := DataFrame.empty t in
    row0 <~ seq_getitem (OdeResult.y simulation_result) 0 ;;
    df <~ DataFrame.setitem_array df (phi_key self) row0 ;;
    row1 <~ seq_getitem (OdeResult.y simulation_result) 1 ;;
    df <~ DataFrame.setitem_array df (phi1d_key self) row1 ;;
    ret df.

(** [simulate] of the base class. *)
Definition simulate {Σ : Collaborators} (self : obj) (t : list float)
    (phi0 phi1d0 omega0 zeta : float) : res DataFrame.t :=
  let parameters : gmap string float := <["zeta" := zeta]> (<["omega0" := omega0]> ∅) in
  _simulate self t phi0 phi1d0 parameters.

(** [estimator_acceleration]: in the source the dict holds the coefficients
    and, under ['phi'] and ['phi1d'], the two observed columns; the numeric
    function then works row by row. Here the two columns are passed next to
    the coefficients, and the names are bound once, as in the one call. *)
Definition estimator_acceleration (self : obj) (parameters : gmap string float)
    (phi phi1d : Series.t) : res Series.t :=
  let f := calculate_acceleration self in
  _ <~ bind_arguments f [] (<["phi1d" := 0%float]> (<["phi" := 0%float]> parameters)) ;;
  ret (Series.mk (Series.index phi)
         (zip_with (fun a b => body f (<["phi1d" := b]> (<["phi" := a]> parameters)))
            (Series.values phi) (Series.values phi1d))).

(** [estimator_integration]: the bare [except] turns every exception of
    [_simulate] into a frame of infinities over [t]. *)
Definition estimator_integration {Σ : Collaborators} (self : obj) (t : list float)
    (phi0 phi1d0 : float) (parameters : gmap string float) : res Series.t :=
  df <~ try_except (_simulate self t phi0 phi1d0 parameters)
          (fun _ =>
             let df := DataFrame.empty t in
             let df := DataFrame.setitem_scalar df "phi" np.inf in
             let df := DataFrame.setitem_scalar df "phi1d" np.inf in
             ret df) ;;
  DataFrame.getitem df (y_key self).

(** The first lines of [estimator], which [fit] repeats on the optimizer's
    solution: the coefficient vector is zipped with [parameter_names], and a
    fixed natural frequency is added under ['omega0']. *)
Definition named_parameters {Σ : Collaborators} (self : obj) (x : list float)
    : res (gmap string float) :=
  let parameters := dict_of_zip (parameter_names self) x in
  if negb (omega_regression self) then
    w <~ omega0 self ;;
    ret (<["omega0" := w]> parameters)
  else ret parameters.

(** [estimator] *)
Definition estimator {Σ : Collaborators} (self : obj) (x : list float)
    (xs : DataFrame.t) : res Series.t :=
  parameters <~ named_parameters self x ;;
  if String.eqb (fit_method self) "derivation" then
    phi <~ DataFrame.getitem xs (phi_key self) ;;
    phi1d <~ DataFrame.getitem xs (phi1d_key self) ;;
    estimator_acceleration self parameters phi phi1d
  else if String.eqb (fit_method self) "integration" then
    let t := DataFrame.index xs in
    phi0 <~ DataFrame.iloc0_getitem xs (phi_key self) ;;
    let phi1d0 := 0%float in
    estimator_integration self t phi0 phi1d0 parameters
  else raise (ValueError "Unknown fit_mehod").

(** [error] (static): the residual [ys - self.estimator(x, xs)]. *)
Definition error {Σ : Collaborators} (x : list float) (self : obj)
    (xs : DataFrame.t) (ys : Series.t) : res Series.t :=
  prediction <~ estimator self x xs ;;
  ret (Series.sub ys prediction).

(** The residual function handed to the optimizer: [fun=self.error] with
    [kwargs = {'self': self, 'xs': X, 'ys': X[self.y_key]}]. *)
Definition residuals {Σ : Collaborators} (self : obj) (X : DataFrame.t)
    (ys : Series.t) (x : list float) : res (list float) :=
  r <~ error x self X ys ;;
  ret (Series.values r).

(** The call of [least_squares] in [fit], with its arguments taken in the
    order Python evaluates them. *)
Definition optimize {Σ : Collaborators} (self : obj) (X : DataFrame.t)
    : res OptimizeResult.t :=
  ys <~ DataFrame.getitem X (y_key self) ;;
  let x0 := initial_guess self in
  bnds <~ bounds self ;;
  least_squares (residuals self X ys) x0 bnds (ftol self) (maxfev self)
    "soft_l1" 0x1.999999999999ap-4%float.

(** [fit]. The object it leaves behind is returned with the outcome, so that
    the attributes assigned before an exception are kept. *)
Definition fit {Σ : Collaborators} (self : obj) (X : DataFrame.t) : obj * res unit :=
  let self := set_X self X in
  match optimize self X with
  | inl e => (self, raise e)
  | inr result =>
      let self := set_result self result in
      if assert_success self && negb (OptimizeResult.success result) then
        (self, raise AssertionError)
      else
        let parameters :=
          dict_of_zip (parameter_names self) (OptimizeResult.x result) in
        let self := set_parameters self parameters in
        if negb (omega_regression self) then
          match omega0 self with
          | inl e => (self, raise e)
          | inr w =>
              let self := set_parameters self (<["omega0" := w]> parameters) in
              (set_is_fitted_ self true, ret tt)
          end
        else (set_is_fitted_ self true, ret tt)
  end.

(** [predict] *)
Definition predict {Σ : Collaborators} (self : obj) (X : DataFrame.t) : res DataFrame.t :=
  _ <~ check_is_fitted self "is_fitted_" ;;
  phi0 <~ DataFrame.getitem_iloc0 X (phi_key self) ;;
  phi1d0 <~ DataFrame.getitem_iloc0 X (phi1d_key self) ;;
  let t := DataFrame.index X in
  parameters <~ getattr (parameters self) "parameters" ;;
  _simulate self t phi0 phi1d0 parameters.

(** [true_and_prediction]; [None] for [X] stands for the stored frame. *)
Definition true_and_prediction {Σ : Collaborators} (self : obj)
    (X : option DataFrame.t) : res (Series.t * Series.t) :=
  X <~ match X with
       | None => getattr (RollDecay.X self) "X"
       | Some X => ret X
       end ;;
  y_true <~ DataFrame.getitem X (phi_key self) ;;
  df_sim <~ predict self X ;;
  y_pred <~ DataFrame.getitem df_sim (phi_key self) ;;
  ret (y_true, y_pred).

End RollDecay.

(** ** direct_estimator_cubic.py: class EstimatorCubic and its variants *)

(** What [direct_estimator_cubic.py] takes from the rest of the package:
    - [functions_A44] and [functions_omega0] are [functions['A44']] and
      [functions['omega0']], the closed forms of effective inertia and of
      natural frequency made by [lambdify] from the module [equations];
    - [run function inputs] is [substitute_dynamic_symbols.run];
    - [normalize_equations new_key], when the symbol [new_key] has a
      normalization equation, is that equation solved for the symbol, as a
      function of the fitted value and of [A_44];
    - [super_result_for_database] is [DirectEstimator.result_for_database]. *)
Class EquationLibrary : Type := {
  functions_A44 : PyFunction;
  functions_omega0 : PyFunction;
  run : PyFunction → gmap string float → res float;
  normalize_equations : string → option (float → float → float);
  super_result_for_database :
    RollDecay.obj → gmap string float → res (gmap string float)
}.

Module EstimatorCubic.

Inductive variant : Type := Linear | QuadraticB | QuadraticBandC | Cubic.

(** The coefficient names each variant's [simulate] hands to its acceleration
    function. *)
Definition simulate_keys (v : variant) : list string :=
  match v with
  | Cubic => ["B_1A"; "B_2A"; "B_3A"; "C_1A"; "C_3A"; "C_5A"]
  | QuadraticB => ["B_1"; "B_2"; "C_1"]
  | QuadraticBandC => ["B_1"; "B_2"; "C_1"; "C_3"]
  | Linear => ["B_1"; "C_1"]
  end.

Definition default_maxfev : Z := 100.
Definition default_ftol : float := 0x1.203af9ee75616p-50%float.
Definition default_fit_method : string := "integration".

(** [EstimatorCubic.__init__], inherited unchanged by the three other
    variants. [new_bounds.update(bounds)] lets the caller's entries win.
    [DirectEstimator] is taken to hand its arguments on to
    [RollDecay.__init__]. *)
Definition __init__ (cls_acceleration : PyFunction) (maxfev : Z)
    (bounds : gmap string (list float)) (ftol : float) (p0 : gmap string float)
    (fit_method : string) : res RollDecay.obj :=
  let new_bounds : gmap string (list float) := {[ "B_1_A" := [0%float; np.inf] ]} in
  let new_bounds := bounds ∪ new_bounds in
  let bounds := new_bounds in
  RollDecay.__init__ cls_acceleration maxfev bounds ftol p0 fit_method true.

(** [simulate] of each variant: the named coefficients become the dict given
    to [_simulate]. *)
Definition simulate {Σ : Collaborators} (v : variant) (self : RollDecay.obj)
    (t : list float) (phi0 phi1d0 : float) (coefficients : list float)
    : res DataFrame.t :=
  if decide (length coefficients = length (simulate_keys v)) then
    RollDecay._simulate self t phi0 phi1d0 (dict_of_zip (simulate_keys v) coefficients)
  else raise (TypeError "simulate() missing or unexpected arguments").

(** [key[0:-1]] *)
Definition drop_last (key : string) : string :=
  String.substring 0 (String.length key - 1) key.

(** [calculate_additional_parameters] *)
Definition calculate_additional_parameters {L : EquationLibrary}
    (self : RollDecay.obj) (A44 : float) : res (gmap string float) :=
  _ <~ RollDecay.check_is_fitted self "is_fitted_" ;;
  parameters <~ RollDecay.getattr (RollDecay.parameters self) "parameters" ;;
  ret (foldl
         (fun parameters_additional kv =>
            let new_key := drop_last kv.1 in
            match normalize_equations new_key with
            | Some solution => <[new_key := solution kv.2 A44]> parameters_additional
            | None => parameters_additional
            end)
         ∅ (map_to_list parameters)).

(** [a.combine_first(b)] on two series indexed by names: the union of the
    keys, with the value of [a] unless it is null. *)
Definition combine_first (a b : gmap string float) : gmap string float :=
  union_with (fun va vb => Some (if PrimFloat.is_nan va then vb else va)) a b.

(** [result_for_database] *)
Definition result_for_database {L : EquationLibrary} (self : RollDecay.obj)
    (meta_data : gmap string float) : res (gmap string float) :=
  s <~ super_result_for_database self meta_data ;;
  let inputs := meta_data in
  let inputs :=
    if decide (is_Some (inputs !! "g")) then inputs
    else <["g" := 0x1.39eb851eb851fp+3%float]> inputs in
  let inputs :=
    if decide (is_Some (inputs !! "rho")) then inputs
    else <["rho" := 1000%float]> inputs in
  Volume <~ dict_getitem inputs "Volume" ;;
  rho <~ dict_getitem inputs "rho" ;;
  let inputs := <["m" := (Volume * rho)%float]> inputs in
  parameters <~ RollDecay.getattr (RollDecay.parameters self) "parameters" ;;
  let inputs := combine_first parameters inputs in
  A_44 <~ run functions_A44 inputs ;;
  let s := <["A_44" := A_44]> s in
  s_A_44 <~ dict_getitem s "A_44" ;;
  parameters_additional <~ calculate_additional_parameters self s_A_44 ;;
  let s := parameters_additional ∪ s in
  s_A_44 <~ dict_getitem s "A_44" ;;
  let inputs := <["A_44" := s_A_44]> inputs in
  omega0 <~ run functions_omega0 inputs ;;
  ret (<["omega0" := omega0]> s).

End EstimatorCubic.

(** ** What the statements below ask of the collaborators *)

(** A time grid whose samples increase strictly. *)
Fixpoint increasing (t : list float) : bool :=
  match t with
  | a :: (b :: _) as rest => (a <? b)%float && increasing rest
  | _ => true
  end.

(** Asked for the span from the first to the last sample of an increasing
    grid, the solver takes the derivative at the initial state before it does
    anything else, and an exception of the derivative comes out of it. *)
Definition derivative_taken_first {Σ : Collaborators} : Prop :=
  ∀ f ta tb y0 t_eval e,
    seq_getitem t_eval 0 = ret ta →
    seq_getitem_last t_eval = ret tb →
    increasing t_eval = true →
    f ta y0 = raise e →
    solve_ivp f (ta, tb) y0 t_eval = raise e.

(** The optimizer returns only after it has computed the residual at [x0]. *)
Definition residual_taken_at_x0 {Σ : Collaborators} : Prop :=
  ∀ f x0 bnds ftol max_nfev loss f_scale r,
    least_squares f x0 bnds ftol max_nfev loss f_scale = ret r →
    ∃ v, f x0 = ret v.

(** The optimizer's solution has as many components as [x0]. *)
Definition solution_as_long_as_x0 {Σ : Collaborators} : Prop :=
  ∀ f x0 bnds ftol max_nfev loss f_scale r,
    least_squares f x0 bnds ftol max_nfev loss f_scale = ret r →
    length (OptimizeResult.x r) = length x0.

(** ** The claim's own reading of two notions, for comparison with the code *)

(** The coefficient names a model declares: the parameters of its acceleration
    function without the two state variables, and ['omega0'] when the natural
    frequency is fixed rather than fitted. *)
Definition declared_names (self : RollDecay.obj) : gset string :=
  ((list_to_set (signature (RollDecay.calculate_acceleration self)) : gset string)
     ∖ {[ RollDecay.phi_key self; RollDecay.phi1d_key self ]})
  ∪ (if RollDecay.omega_regression self then ∅ else {[ "omega0" ]}).

(** The spectral peak as the specification words it: the dominant bin among
    the bins after the zero bin. *)
Definition fft_omega0_excluding_zero_bin (frequencies dft : list float) : res float :=
  index <~ np.argmax (tail dft) ;;
  natural_frequency <~ seq_getitem (tail frequencies) index ;;
  ret (2 * np.pi * natural_frequency)%float.

(** ** Instances used in the examples *)

Module Examples.

(** The acceleration of the base class, solved from
    [phi = -phi_dot_dot/omega0**2 - 2*zeta/omega0*phi_dot]. *)
Definition linear_acceleration : PyFunction :=
  mkPyFunction ["omega0"; "phi"; "phi1d"; "zeta"]
    (fun a =>
       let get k := dict_get a k 0%float in
       (- (get "omega0" * get "omega0" * get "phi")
        - 2 * get "zeta" * get "omega0" * get "phi1d")%float).

(** An acceleration function for the cubic class. The class makes its own
    with [lambdify] from the module [equations], which is not part of the two
    files; this stand-in is written for the examples only: damping
    [B_1A*v + B_2A*v*|v| + B_3A*v^3] and restoring
    [C_1A*p + C_3A*p^3 + C_5A*p^5], with these six coefficients and the two
    state variables as its parameters. *)
Definition cubic_acceleration : PyFunction :=
  mkPyFunction ["B_1A"; "B_2A"; "B_3A"; "C_1A"; "C_3A"; "C_5A"; "phi"; "phi1d"]
    (fun a =>
       let get k := dict_get a k 0%float in
       let v := get "phi1d" in
       let p := get "phi" in
       (- (get "B_1A" * v + get "B_2A" * v * abs v + get "B_3A" * v * v * v
           + get "C_1A" * p + get "C_3A" * p * p * p
           + get "C_5A" * p * p * p * p * p))%float).

(** A fixed-step integrator standing in for the solver: it takes the
    derivative at the initial state first, then one explicit Euler step per
    requested sample. *)
Fixpoint euler (f : float → list float → res (list float)) (t_prev : float)
    (y : list float) (ts : list float) : res (list (list float)) :=
  match ts with
  | [] => ret []
  | t :: ts' =>
      dy <~ f t_prev y ;;
      let y' := zip_with (fun yi di => (yi + (t - t_prev) * di)%float) y dy in
      rest <~ euler f t y' ts' ;;
      ret (y' :: rest)
  end.

Definition euler_ivp (f : float → list float → res (list float))
    (t_span : float * float) (y0 : list float) (t_eval : list float)
    : res OdeResult.t :=
  _ <~ f t_span.1 y0 ;;
  states <~ euler f t_span.1 y0 (tail t_eval) ;;
  let states := y0 :: states in
  ret (OdeResult.mk true
         [map (fun s => nth 0 s 0%float) states; map (fun s => nth 1 s 0%float) states]).

(** A solver that reports failure on every problem. *)
Definition failing_ivp (f : float → list float → res (list float))
    (t_span : float * float) (y0 : list float) (t_eval : list float)
    : res OdeResult.t :=
  ret (OdeResult.mk false []).

(** An optimizer with a budget of one evaluation: it computes the residual at
    [x0] and returns [x0], converged or not as [success] says. *)
Definition one_evaluation (success : bool) (f : list float → res (list float))
    (x0 : list float) (bounds : list float * list float) (ftol : float)
    (max_nfev : Z) (loss : string) (f_scale : float) : res OptimizeResult.t :=
  _ <~ f x0 ;;
  ret (OptimizeResult.mk x0 success).

(** The magnitudes of the real transform of a signal of one, two or four
    samples, where the transform needs no trigonometry. *)
Definition short_rfft_abs (signal : list float) : res (list float) :=
  match signal with
  | [a] => ret [abs a]
  | [a; b] => ret [abs (a + b); abs (a - b)]%float
  | [a; b; c; d] =>
      ret [abs (a + b + c + d);
           sqrt ((a - c) * (a - c) + (d - b) * (d - b));
           abs (a - b + c - d)]%float
  | _ => raise (LibraryError "unsupported length")
  end.

Definition collaborators (success : bool) : Collaborators :=
  {| solve_ivp := euler_ivp;
     least_squares := one_evaluation success;
     rfft_abs := short_rfft_abs |}.

Definition failing_solver : Collaborators :=
  {| solve_ivp := failing_ivp;
     least_squares := one_evaluation true;
     rfft_abs := short_rfft_abs |}.

(** An optimizer that begins as [scipy.optimize.least_squares] does: it
    computes the residual at [x0] and raises [ValueError] when an entry of it
    is not finite; otherwise it returns [x0]. *)
Definition checking_evaluation (f : list float → res (list float))
    (x0 : list float) (bounds : list float * list float) (ftol : float)
    (max_nfev : Z) (loss : string) (f_scale : float) : res OptimizeResult.t :=
  f0 <~ f x0 ;;
  if forallb is_finite f0 then ret (OptimizeResult.mk x0 true)
  else raise (ValueError "Residuals are not finite in the initial point.").

Definition failing_solver_checking_optimizer : Collaborators :=
  {| solve_ivp := failing_ivp;
     least_squares := checking_evaluation;
     rfft_abs := short_rfft_abs |}.

(** Four samples of a roll signal, one second apart. *)
Definition X4 : DataFrame.t :=
  DataFrame.mk [0; 1; 2; 3]%float
    (<["phi" := [0.5; 0.25; -0.125; -0.25]%float]>
       (<["phi1d" := [0.25; -0.5; -0.25; 0.125]%float]>
          (<["phi2d" := [-0.5; -0.25; 0.125; 0.25]%float]> ∅))).

(** The same series without its roll-rate column. *)
Definition X4_phi_only : DataFrame.t :=
  DataFrame.mk [0; 1; 2; 3]%float (<["phi" := [0.5; 0.25; -0.125; -0.25]%float]> ∅).

(** A signal that oscillates about an offset of one, every other sample up. *)
Definition X4_offset : DataFrame.t :=
  DataFrame.mk [0; 1; 2; 3]%float (<["phi" := [1.5; 0.5; 1.5; 0.5]%float]> ∅).

(** A closed-form table for the examples: [A_44 = GM*g*m/C_1A] and
    [omega0 = sqrt(GM*g*m/A_44)]; [run] picks the inputs a function names. *)
Definition A44_example : PyFunction :=
  mkPyFunction ["C_1A"; "GM"; "g"; "m"]
    (fun a =>
       let get k := dict_get a k 0%float in
       (get "GM" * get "g" * get "m" / get "C_1A")%float).

Definition omega0_example : PyFunction :=
  mkPyFunction ["A_44"; "GM"; "g"; "m"]
    (fun a =>
       let get k := dict_get a k 0%float in
       sqrt (get "GM" * get "g" * get "m" / get "A_44")%float).

Definition run_example (f : PyFunction) (inputs : gmap string float) : res float :=
  input <~ mapM (fun k => v <~ dict_getitem inputs k ;; ret (k, v)) (signature f) ;;
  call f [] (list_to_map input).

Definition equation_library : EquationLibrary :=
  {| functions_A44 := A44_example;
     functions_omega0 := omega0_example;
     run := run_example;
     normalize_equations := fun key =>
       if bool_decide (key ∈ ["B_1"; "B_2"; "B_3"; "C_1"; "C_3"; "C_5"])
       then Some (fun value A44 => (value * A44)%float) else None;
     super_result_for_database := fun self meta_data =>
       parameters <~ RollDecay.getattr (RollDecay.parameters self) "parameters" ;;
       ret parameters |}.

(** Objects made by the constructors. *)
Definition made (r : res RollDecay.obj) : RollDecay.obj :=
  match r with
  | inr self => self
  | inl _ =>
      RollDecay.mk linear_acceleration None "" "" "" "" ∅ ∅ 0 0 "" true true
        None None None
  end.

Definition linear_model (fit_method : string) (omega_regression : bool) : RollDecay.obj :=
  made (RollDecay.__init__ linear_acceleration RollDecay.default_maxfev ∅
          RollDecay.default_ftol ∅ fit_method omega_regression).

Definition cubic_model : RollDecay.obj :=
  made (EstimatorCubic.__init__ cubic_acceleration EstimatorCubic.default_maxfev ∅
          EstimatorCubic.default_ftol ∅ EstimatorCubic.default_fit_method).

(** The cubic model after a fit on [X4] with the converging stand-in. *)
Definition fitted_cubic_model : RollDecay.obj :=
  (RollDecay.fit (Σ:=collaborators true) cubic_model X4).1.

End Examples.

(** ** Objects with the same configuration *)

(** Two estimators that agree on everything [__init__] sets, apart from the
    fitted flag: they may differ in what a fit has left behind. *)
Definition same_configuration (a b : RollDecay.obj) : Prop :=
  RollDecay.calculate_acceleration a = RollDecay.calculate_acceleration b
  ∧ RollDecay.phi_key a = RollDecay.phi_key b
  ∧ RollDecay.phi1d_key a = RollDecay.phi1d_key b
  ∧ RollDecay.phi2d_key a = RollDecay.phi2d_key b
  ∧ RollDecay.y_key a = RollDecay.y_key b
  ∧ RollDecay.boundaries a = RollDecay.boundaries b
  ∧ RollDecay.p0 a = RollDecay.p0 b
  ∧ RollDecay.maxfev a = RollDecay.maxfev b
  ∧ RollDecay.ftol a = RollDecay.ftol b
  ∧ RollDecay.fit_method a = RollDecay.fit_method b
  ∧ RollDecay.omega_regression a = RollDecay.omega_regression b
  ∧ RollDecay.assert_success a = RollDecay.assert_success b.

(** ** The order of binary64 values *)

(** A key whose lexicographic order is the order of the values that are not
    [nan]: the class (infinities, negative, zero, positive), then exponent and
    mantissa, both negated for negative values. *)
Definition SFkey (x : spec_float) : Z * Z * Z :=
  match x with
  | S754_nan => (0, 0, 0)%Z
  | S754_zero _ => (0, 0, 0)%Z
  | S754_infinity s => (if s then -2 else 2, 0, 0)%Z
  | S754_finite s m e => if s then (-1, - e, - Z.pos m)%Z else (1, e, Z.pos m)%Z
  end.

Definition key_lt (a b : Z * Z * Z) : Prop :=
  (a.1.1 < b.1.1
   ∨ (a.1.1 = b.1.1 ∧ (a.1.2 < b.1.2 ∨ (a.1.2 = b.1.2 ∧ a.2 < b.2))))%Z.

Definition key_le (a b : Z * Z * Z) : Prop :=
  (a.1.1 < b.1.1
   ∨ (a.1.1 = b.1.1 ∧ (a.1.2 < b.1.2 ∨ (a.1.2 = b.1.2 ∧ a.2 ≤ b.2))))%Z.

Definition fkey (v : float) : Z * Z * Z := SFkey (Prim2SF v).

(** [l[idx]] is a largest element of [l], and the first such. *)
Definition dominant (l : list float) (idx : nat) : Prop :=
  ∃ m, l !! idx = Some m
       ∧ ∀ j v, l !! j = Some v →
           (v <=? m)%float = true ∧ (j < idx → (v <? m)%float = true).

(** * Properties *)

(** ** Floating-point facts *)

Section Floats.

Lemma sub_infinity (y : float) :
  is_finite y = true → (y - infinity)%float = neg_infinity.
Proof.
  intros Hy. apply Prim2SF_inj. rewrite sub_spec.
  unfold is_finite, is_nan, is_infinity in Hy.
  rewrite !FloatAxioms.eqb_spec, FloatAxioms.abs_spec in Hy.
  change (Prim2SF infinity) with (S754_infinity false) in *.
  change (Prim2SF neg_infinity) with (S754_infinity true).
  destruct (Prim2SF y) as [s|s| |s m e]; try destruct s; simpl in Hy;
    try discriminate; reflexivity.
Qed.

Lemma zip_with_sub_infinity (ys : list float) :
  Forall (fun y => is_finite y = true) ys →
  zip_with PrimFloat.sub ys (replicate (length ys) infinity)
  = replicate (length ys) neg_infinity.
Proof.
  induction 1 as [|y ys Hy _ IH]; simpl; [reflexivity|].
  rewrite (sub_infinity y Hy), IH. reflexivity.
Qed.

End Floats.

(** ** The order of summation *)

Section Summation.

(** The recursion of [pairwise_sum] never runs out of fuel when it is given
    the length of the array. *)
Lemma pairwise_sum_fuel (fuel1 fuel2 : nat) (a : list float) :
  length a ≤ fuel1 → length a ≤ fuel2 →
  np.pairwise_sum fuel1 a = np.pairwise_sum fuel2 a.
Proof.
  revert fuel2 a. induction fuel1 as [|fuel1 IH]; intros fuel2 a H1 H2.
  - assert (a = []) as -> by (destruct a; [reflexivity|simpl in H1; lia]).
    destruct fuel2; reflexivity.
  - destruct fuel2 as [|fuel2].
    + assert (a = []) as -> by (destruct a; [reflexivity|simpl in H2; lia]).
      reflexivity.
    + cbn [np.pairwise_sum].
      destruct (Nat.ltb 128 (length a)) eqn:Hlong; [|reflexivity].
      apply Nat.ltb_lt in Hlong.
      set (n2 := length a / 2 - (length a / 2) mod 8).
      assert (Hn2 : 0 < n2 < length a).
      { unfold n2.
        pose proof (Nat.div_mod_eq (length a) 2) as Hd.
        pose proof (Nat.mod_upper_bound (length a) 2) as Hm.
        pose proof (Nat.mod_upper_bound (length a / 2) 8) as Hm8.
        lia. }
      rewrite (IH fuel2 (take n2 a)), (IH fuel2 (drop n2 a));
        [reflexivity|..]; rewrite ?length_take, ?length_drop; lia.
Qed.

(** Up to seven elements are added from left to right. *)
Lemma sum_short (a : list float) :
  length a < 8 → np.sum a = (0 + foldl PrimFloat.add 0 a)%float.
Proof.
  intros Hlen. unfold np.sum.
  assert (Hblock : np.pairwise_sum (length a) a = np.sum_block a).
  { destruct (length a) eqn:Hn; [reflexivity|].
    cbn [np.pairwise_sum]. rewrite Hn.
    destruct (Nat.ltb 128 (S n)) eqn:Hlong; [|reflexivity].
    apply Nat.ltb_lt in Hlong. lia. }
  rewrite Hblock.
  do 8 (destruct a as [|? a]; [reflexivity|]). simpl in Hlen. lia.
Qed.

(** From eight elements on the order matters: the sixteen steps of a grid of
    seventeen samples [0.2125] apart have the mean [0.21250000000000002],
    where the sum from left to right gives [0.21249999999999999]. *)
Lemma mean_of_sixteen_steps :
  let t := map (fun i => (np.float_of_nat i * 0x1.b333333333333p-3)%float)
             (seq 0 17) in
  np.mean (np.diff t) = 0x1.b333333333334p-3%float
  ∧ (foldl PrimFloat.add 0 (np.diff t) / 16)%float = 0x1.b333333333333p-3%float.
Proof. split; vm_compute; reflexivity. Qed.

End Summation.

(** ** The bare [except] of the integration residual *)

Section IntegrationResidual.
Context {Σ : Collaborators}.

Lemma estimator_integration_absorbs (self : RollDecay.obj) (t : list float)
    (phi0 phi1d0 : float) (parameters : gmap string float) (e : exn) :
  RollDecay.y_key self = "phi" →
  RollDecay._simulate self t phi0 phi1d0 parameters = raise e →
  RollDecay.estimator_integration self t phi0 phi1d0 parameters
  = ret (Series.mk t (replicate (length t) np.inf)).
Proof.
  intros Hy Hsim. unfold RollDecay.estimator_integration.
  rewrite Hsim, Hy. reflexivity.
Qed.

Lemma estimator_integration_mode (self : RollDecay.obj) (x : list float)
    (xs : DataFrame.t) (parameters : gmap string float) (phi0 : float) :
  RollDecay.fit_method self = "integration" →
  RollDecay.named_parameters self x = ret parameters →
  DataFrame.iloc0_getitem xs (RollDecay.phi_key self) = ret phi0 →
  RollDecay.estimator self x xs
  = RollDecay.estimator_integration self (DataFrame.index xs) phi0 0 parameters.
Proof.
  intros Hm Hp Hphi. unfold RollDecay.estimator.
  rewrite Hp, Hm. simpl. rewrite Hphi. reflexivity.
Qed.

End IntegrationResidual.

(** ** The initial state of an integration trial *)

Section ZeroInitialRate.
Context {Σ : Collaborators}.

(** On a grid that is not empty, [_simulate] asks the solver for the span from
    zero to the last shifted sample, from the state [[phi0, phi1d0]]. *)
Lemma _simulate_initial_state (self : RollDecay.obj) (t0 : float)
    (t_rest : list float) (phi0 phi1d0 : float) (parameters : gmap string float) :
  ∃ tb,
    seq_getitem_last (map (fun ti => (ti - t0)%float) (t0 :: t_rest)) = ret tb
    ∧ RollDecay._simulate self (t0 :: t_rest) phi0 phi1d0 parameters
      = (simulation_result <~
           solve_ivp
             (fun τ states =>
                RollDecay.roll_decay_time_step self τ states parameters)
             ((t0 - t0)%float, tb) [phi0; phi1d0]
             (map (fun ti => (ti - t0)%float) (t0 :: t_rest)) ;;
         if negb (OdeResult.success simulation_result) then
           raise (ValueError "Simulation failed")
         else
           row0 <~ seq_getitem (OdeResult.y simulation_result) 0 ;;
           df <~ DataFrame.setitem_array (DataFrame.empty (t0 :: t_rest))
                   (RollDecay.phi_key self) row0 ;;
           row1 <~ seq_getitem (OdeResult.y simulation_result) 1 ;;
           df <~ DataFrame.setitem_array df (RollDecay.phi1d_key self) row1 ;;
           ret df).
Proof.
  unfold RollDecay._simulate. simpl.
  destruct (seq_getitem_last _) as [e|tb] eqn:Hlast.
  - exfalso. unfold seq_getitem_last in Hlast.
    destruct (last _) eqn:Hl; [discriminate|].
    apply last_None in Hl. discriminate.
  - exists tb. split; reflexivity.
Qed.

(** The last sample of the shifted grid. *)
Lemma seq_getitem_last_shifted (t0 t_last : float) (t : list float) :
  last t = Some t_last →
  seq_getitem_last (map (fun ti => (ti - t0)%float) t) = ret (t_last - t0)%float.
Proof.
  intros Hlast. unfold seq_getitem_last.
  change (@map float float) with (@fmap list _ float float).
  rewrite fmap_last, Hlast. reflexivity.
Qed.

(** What [_simulate] returns is what the solver returns for the problem that
    starts at [[phi0, phi1d0]]: a frame comes back exactly when the solver
    succeeds with two rows as long as the grid, and the frame holds them. *)
Lemma _simulate_returns_iff (self : RollDecay.obj) (t0 t_last : float)
    (t_rest : list float) (phi0 phi1d0 : float) (parameters : gmap string float)
    (df : DataFrame.t) :
  last (t0 :: t_rest) = Some t_last →
  RollDecay._simulate self (t0 :: t_rest) phi0 phi1d0 parameters = ret df
  ↔ ∃ (r : OdeResult.t) (row0 row1 : list float),
      solve_ivp
        (fun τ states => RollDecay.roll_decay_time_step self τ states parameters)
        ((t0 - t0)%float, (t_last - t0)%float) [phi0; phi1d0]
        (map (fun ti => (ti - t0)%float) (t0 :: t_rest)) = ret r
      ∧ OdeResult.success r = true
      ∧ OdeResult.y r !! 0 = Some row0
      ∧ OdeResult.y r !! 1 = Some row1
      ∧ length row0 = length (t0 :: t_rest)
      ∧ length row1 = length (t0 :: t_rest)
      ∧ df = DataFrame.mk (t0 :: t_rest)
               (<[RollDecay.phi1d_key self := row1]>
                  (<[RollDecay.phi_key self := row0]> ∅)).
Proof.
  intros Hlast.
  destruct (_simulate_initial_state self t0 t_rest phi0 phi1d0 parameters)
    as (tb & Htb & ->).
  rewrite (seq_getitem_last_shifted t0 t_last _ Hlast) in Htb.
  injection Htb as <-.
  unfold seq_getitem, DataFrame.setitem_array, DataFrame.empty.
  split.
  - destruct (solve_ivp _ _ _ _) as [e|r]; [discriminate|]. simpl.
    destruct (OdeResult.success r) eqn:Hs; [|discriminate]. simpl.
    destruct (OdeResult.y r !! 0) as [row0|] eqn:H0; [|discriminate]. simpl.
    destruct (decide (length row0 = S (length t_rest))) as [Hlen0|?];
      [|simpl; discriminate]. simpl.
    destruct (OdeResult.y r !! 1) as [row1|] eqn:H1; [|discriminate]. simpl.
    destruct (decide (length row1 = S (length t_rest))) as [Hlen1|?];
      [|simpl; discriminate]. simpl.
    intros [= <-]. exists r, row0, row1. repeat split; assumption.
  - intros (r & row0 & row1 & -> & Hs & H0 & H1 & Hlen0 & Hlen1 & ->). simpl.
    rewrite Hs, H0. simpl. simpl in Hlen0, Hlen1.
    rewrite (decide_True _ _ Hlen0). simpl. rewrite H1. simpl.
    rewrite (decide_True _ _ Hlen1). reflexivity.
Qed.

(** C4: in the integration mode the prediction of a trial is the roll-angle
    row the solver returns for the problem that starts at the first observed
    roll angle with the roll rate [0.0], over the series' index shifted to
    start at zero; no other solver result is ever returned (the alternative
    is the infinite series of a failed trial); and the observed columns other
    than the roll angle, the roll rate among them, present or not, play no
    part. *)
Theorem integration_starts_at_rest (self : RollDecay.obj) (x : list float)
    (xs : DataFrame.t) (t0 t_last phi0 : float) (t_rest phi_rest : list float)
    (parameters : gmap string float) :
  let t := t0 :: t_rest in
  let trajectory :=
    solve_ivp
      (fun τ states => RollDecay.roll_decay_time_step self τ states parameters)
      ((t0 - t0)%float, (t_last - t0)%float) [phi0; 0%float]
      (map (fun ti => (ti - t0)%float) t) in
  RollDecay.fit_method self = "integration" →
  RollDecay.phi_key self = "phi" →
  RollDecay.phi1d_key self = "phi1d" →
  RollDecay.y_key self = "phi" →
  DataFrame.index xs = t →
  last t = Some t_last →
  DataFrame.columns xs !! "phi" = Some (phi0 :: phi_rest) →
  RollDecay.named_parameters self x = ret parameters →
  (∀ (r : OdeResult.t) (row0 row1 : list float),
     trajectory = ret r →
     OdeResult.success r = true →
     OdeResult.y r !! 0 = Some row0 →
     OdeResult.y r !! 1 = Some row1 →
     length row0 = length t →
     length row1 = length t →
     RollDecay.estimator self x xs = ret (Series.mk t row0))
  ∧ (∃ s : Series.t,
       RollDecay.estimator self x xs = ret s
       ∧ (s = Series.mk t (replicate (length t) np.inf)
          ∨ ∃ (r : OdeResult.t) (row0 : list float),
              trajectory = ret r
              ∧ OdeResult.success r = true
              ∧ OdeResult.y r !! 0 = Some row0
              ∧ s = Series.mk t row0))
  ∧ (∀ xs' : DataFrame.t,
       DataFrame.index xs' = t →
       DataFrame.columns xs' !! "phi" = Some (phi0 :: phi_rest) →
       RollDecay.estimator self x xs' = RollDecay.estimator self x xs).
Proof.
  intros t trajectory Hm Hphi Hphi1d Hy Hidx Hlast Hcol Hp.
  assert (Hest : ∀ ys : DataFrame.t,
            DataFrame.index ys = t →
            DataFrame.columns ys !! "phi" = Some (phi0 :: phi_rest) →
            RollDecay.estimator self x ys
            = RollDecay.estimator_integration self t phi0 0 parameters).
  { intros ys Hi Hc.
    rewrite (estimator_integration_mode self x ys parameters phi0 Hm Hp).
    - rewrite Hi. reflexivity.
    - unfold DataFrame.iloc0_getitem, dict_getitem.
      rewrite Hi, Hphi, Hc. reflexivity. }
  assert (Hframe : ∀ row0 row1 : list float,
            DataFrame.getitem
              (DataFrame.mk t
                 (<[RollDecay.phi1d_key self := row1]>
                    (<[RollDecay.phi_key self := row0]> ∅)))
              (RollDecay.y_key self)
            = ret (Series.mk t row0)).
  { intros row0 row1. unfold DataFrame.getitem. simpl.
    rewrite Hy, Hphi, Hphi1d.
    rewrite lookup_insert_ne by discriminate.
    rewrite lookup_insert_eq. reflexivity. }
  split; [|split].
  - intros r row0 row1 Hr Hs H0 H1 Hlen0 Hlen1.
    rewrite (Hest xs Hidx Hcol). unfold RollDecay.estimator_integration.
    assert (Hsim : RollDecay._simulate self t phi0 0 parameters
                   = ret (DataFrame.mk t
                            (<[RollDecay.phi1d_key self := row1]>
                               (<[RollDecay.phi_key self := row0]> ∅)))).
    { apply (_simulate_returns_iff self t0 t_last t_rest phi0 0 parameters _ Hlast).
      exists r, row0, row1. repeat split; assumption. }
    rewrite Hsim. simpl. apply Hframe.
  - rewrite (Hest xs Hidx Hcol). unfold RollDecay.estimator_integration.
    destruct (RollDecay._simulate self t phi0 0 parameters) as [e|df] eqn:Hsim.
    + simpl. rewrite Hy. eexists. split; [reflexivity|]. left. reflexivity.
    + apply (_simulate_returns_iff self t0 t_last t_rest phi0 0 parameters _ Hlast)
        in Hsim as (r & row0 & row1 & Hr & Hs & H0 & _ & _ & _ & ->).
      simpl. rewrite Hframe. eexists. split; [reflexivity|].
      right. exists r, row0. repeat split; assumption.
  - intros xs' Hi Hc. rewrite (Hest xs' Hi Hc), (Hest xs Hidx Hcol). reflexivity.
Qed.

End ZeroInitialRate.

Lemma integration_starts_at_rest_witness :
  RollDecay.estimator (Σ:=Examples.collaborators true)
    (Examples.linear_model "integration" true) [0.5; 0.5]%float Examples.X4
  = ret (Series.mk [0; 1; 2; 3]%float [0.5; 0.5; 0.375; 0.1875]%float)
  ∧ RollDecay.estimator (Σ:=Examples.collaborators true)
      (Examples.linear_model "integration" true) [0.5; 0.5]%float
      Examples.X4_phi_only
    = RollDecay.estimator (Σ:=Examples.collaborators true)
        (Examples.linear_model "integration" true) [0.5; 0.5]%float Examples.X4.
Proof.
  assert (Hcol : DataFrame.columns Examples.X4 !! "phi"
                 = Some (0.5%float :: [0.25; -0.125; -0.25]%float))
    by (vm_compute; reflexivity).
  assert (Hp : RollDecay.named_parameters (Σ:=Examples.collaborators true)
                 (Examples.linear_model "integration" true) [0.5; 0.5]%float
               = ret (dict_of_zip ["omega0"; "zeta"] [0.5; 0.5]%float))
    by (vm_compute; reflexivity).
  destruct (integration_starts_at_rest (Σ:=Examples.collaborators true)
              (Examples.linear_model "integration" true) [0.5; 0.5]%float
              Examples.X4 0%float 3%float 0.5%float [1; 2; 3]%float
              [0.25; -0.125; -0.25]%float
              (dict_of_zip ["omega0"; "zeta"] [0.5; 0.5]%float)
              eq_refl eq_refl eq_refl eq_refl eq_refl eq_refl Hcol Hp)
    as (Hrow & _ & Hother).
  split.
  - apply (Hrow (OdeResult.mk true
                   [[0.5; 0.5; 0.375; 0.1875]%float;
                    [0; -0.125; -0.1875; -0.1875]%float])
             [0.5; 0.5; 0.375; 0.1875]%float [0; -0.125; -0.1875; -0.1875]%float);
      vm_compute; reflexivity.
  - apply Hother; vm_compute; reflexivity.
Defined.

(** ** Construction *)

Section Construction.

Lemma set_fit_method_known (self : RollDecay.obj) (fit_method : string)
    (self' : RollDecay.obj) :
  RollDecay.set_fit_method self fit_method = (self', ret tt) →
  RollDecay.fit_method self' = fit_method
  ∧ (fit_method = "derivation" ∧ RollDecay.y_key self' = RollDecay.phi2d_key self
     ∨ fit_method = "integration" ∧ RollDecay.y_key self' = RollDecay.phi_key self).
Proof.
  unfold RollDecay.set_fit_method. simpl.
  destruct (String.eqb fit_method "derivation") eqn:Hd.
  - apply String.eqb_eq in Hd. intros [= <-]. simpl. auto.
  - destruct (String.eqb fit_method "integration") eqn:Hi.
    + apply String.eqb_eq in Hi. intros [= <-]. simpl. auto.
    + intros [= _ Hr]. 
Qed.

(** A newly made estimator is not fitted, holds no parameters, and asserts
    the optimizer's success. *)
Lemma __init___fresh (cls_acceleration : PyFunction) (maxfev : Z)
    (bounds : gmap string (list float)) (ftol : float) (p0 : gmap string float)
    (fit_method : string) (omega_regression : bool) (self : RollDecay.obj) :
  RollDecay.__init__ cls_acceleration maxfev bounds ftol p0 fit_method
    omega_regression = ret self →
  RollDecay.is_fitted_ self = Some false
  ∧ RollDecay.parameters self = None
  ∧ RollDecay.assert_success self = true
  ∧ RollDecay.fit_method self = fit_method
  ∧ RollDecay.phi_key self = "phi"
  ∧ RollDecay.phi1d_key self = "phi1d"
  ∧ RollDecay.boundaries self = bounds
  ∧ RollDecay.p0 self = p0
  ∧ RollDecay.omega_regression self = omega_regression
  ∧ RollDecay.calculate_acceleration self = cls_acceleration
  ∧ (fit_method = "integration" → RollDecay.y_key self = "phi").
Proof.
  unfold RollDecay.__init__, RollDecay.set_fit_method. simpl.
  destruct (String.eqb fit_method "derivation") eqn:Hd.
  - apply String.eqb_eq in Hd. subst fit_method. intros [= <-]. simpl.
    repeat split; try reflexivity. discriminate.
  - destruct (String.eqb fit_method "integration") eqn:Hi.
    + apply String.eqb_eq in Hi. subst fit_method. intros [= <-]. simpl.
      repeat split; reflexivity.
    + simpl. discriminate.
Qed.

End Construction.

(** ** The outcome of [fit] *)

Section Fitting.
Context {Σ : Collaborators}.

Lemma omega0_same_X (self1 self2 : RollDecay.obj) :
  RollDecay.X self1 = RollDecay.X self2 →
  RollDecay.omega0 self1 = RollDecay.omega0 self2.
Proof. unfold RollDecay.omega0. intros ->. reflexivity. Qed.

(** When the optimizer has returned and the natural frequency is fixed, the
    spectral estimate exists: the residual at [x0] needed it. *)
Lemma optimize_needs_omega0 (self : RollDecay.obj) (X : DataFrame.t)
    (r : OptimizeResult.t) :
  residual_taken_at_x0 →
  RollDecay.omega_regression self = false →
  RollDecay.optimize self X = ret r →
  ∃ w, RollDecay.omega0 self = ret w.
Proof.
  intros Hls Hom Hopt. unfold RollDecay.optimize in Hopt.
  destruct (DataFrame.getitem X (RollDecay.y_key self)) as [e|ys];
    [discriminate|]. simpl in Hopt.
  destruct (RollDecay.bounds self) as [e|bnds]; [discriminate|]. simpl in Hopt.
  destruct (Hls _ _ _ _ _ _ _ _ Hopt) as [v Hv].
  unfold RollDecay.residuals, RollDecay.error, RollDecay.estimator,
    RollDecay.named_parameters in Hv.
  rewrite Hom in Hv. simpl in Hv.
  destruct (RollDecay.omega0 self) as [e|w]; [discriminate|].
  exists w. reflexivity.
Qed.


End Fitting.

(** The stand-in optimizer of the examples meets both requirements. *)
Lemma one_evaluation_residual_taken_at_x0 (success : bool) :
  residual_taken_at_x0 (Σ:=Examples.collaborators success).
Proof.
  intros f x0 bnds ftol max_nfev loss f_scale r. simpl.
  unfold Examples.one_evaluation.
  destruct (f x0) as [e|v]; [discriminate|]. intros _. exists v. reflexivity.
Qed.

Lemma one_evaluation_solution_as_long_as_x0 (success : bool) :
  solution_as_long_as_x0 (Σ:=Examples.collaborators success).
Proof.
  intros f x0 bnds ftol max_nfev loss f_scale r. simpl.
  unfold Examples.one_evaluation.
  destruct (f x0) as [e|v]; [discriminate|]. intros [= <-]. reflexivity.
Qed.


(** ** A failed trial of the integration residual *)

Section FailedTrial.
Context {Σ : Collaborators}.

(** C1, as the code has it. [fitting] is the estimator while [fit(X)] runs,
    and [residual] the function [fit] hands to [least_squares]. In the
    integration mode, whatever exception the simulation of a trial raises,
    the trial's prediction is [+inf] at every sample time and nothing is
    raised; against finite observations the residual the optimizer gets for
    the trial is [-inf] at every sample time. The fit then ends as the
    optimizer ends: it raises what [least_squares] raises, raises
    [AssertionError] when [least_squares] reports no success and success is
    asserted, and returns otherwise. *)
Theorem integration_trial_failure_absorbed (self : RollDecay.obj)
    (X : DataFrame.t) (ys : Series.t) (bnds : list float * list float)
    (x : list float) (parameters : gmap string float) (phi0 : float) (e : exn) :
  let fitting := RollDecay.set_X self X in
  let residual := RollDecay.residuals fitting X ys in
  let optimizer :=
    least_squares residual (RollDecay.initial_guess self) bnds
      (RollDecay.ftol self) (RollDecay.maxfev self) "soft_l1"
      0x1.999999999999ap-4%float in
  RollDecay.fit_method self = "integration" →
  RollDecay.y_key self = "phi" →
  DataFrame.getitem X "phi" = ret ys →
  length (Series.values ys) = length (DataFrame.index X) →
  Forall (fun y => is_finite y = true) (Series.values ys) →
  RollDecay.bounds self = ret bnds →
  RollDecay.named_parameters fitting x = ret parameters →
  DataFrame.iloc0_getitem X (RollDecay.phi_key self) = ret phi0 →
  RollDecay._simulate fitting (DataFrame.index X) phi0 0 parameters = raise e →
  RollDecay.estimator fitting x X
  = ret (Series.mk (DataFrame.index X)
           (replicate (length (DataFrame.index X)) np.inf))
  ∧ RollDecay.error x fitting X ys
    = ret (Series.mk (Series.index ys)
             (replicate (length (DataFrame.index X)) neg_infinity))
  ∧ residual x = ret (replicate (length (DataFrame.index X)) neg_infinity)
  ∧ (∀ e' : exn, optimizer = raise e' → (RollDecay.fit self X).2 = raise e')
  ∧ (∀ r : OptimizeResult.t,
       optimizer = ret r →
       (RollDecay.fit self X).2
       = if RollDecay.assert_success self && negb (OptimizeResult.success r)
         then raise AssertionError else ret tt).
Proof.
  intros fitting residual optimizer Hm Hy Hys Hlen Hfin Hbnds Hp Hphi Hsim.
  assert (Hest : RollDecay.estimator fitting x X
                 = ret (Series.mk (DataFrame.index X)
                          (replicate (length (DataFrame.index X)) np.inf))).
  { rewrite (estimator_integration_mode fitting x X parameters phi0 Hm Hp Hphi).
    exact (estimator_integration_absorbs fitting _ phi0 0 parameters e Hy Hsim). }
  assert (Herr : RollDecay.error x fitting X ys
                 = ret (Series.mk (Series.index ys)
                          (replicate (length (DataFrame.index X)) neg_infinity))).
  { unfold RollDecay.error. rewrite Hest. simpl.
    unfold Series.sub, np.inf. simpl. rewrite <- Hlen.
    rewrite (zip_with_sub_infinity _ Hfin). reflexivity. }
  assert (Hopt : RollDecay.optimize fitting X = optimizer).
  { unfold RollDecay.optimize.
    change (RollDecay.y_key fitting) with (RollDecay.y_key self).
    rewrite Hy, Hys. simpl.
    change (RollDecay.bounds fitting) with (RollDecay.bounds self).
    rewrite Hbnds. reflexivity. }
  split; [exact Hest|]. split; [exact Herr|]. split; [|split].
  - unfold residual, RollDecay.residuals. rewrite Herr. reflexivity.
  - intros e' He'. unfold RollDecay.fit. fold fitting.
    rewrite Hopt, He'. reflexivity.
  - intros r Hr. unfold RollDecay.fit. fold fitting. rewrite Hopt, Hr.
    unfold ret at 1. cbv beta iota.
    change (RollDecay.assert_success (RollDecay.set_result fitting r))
      with (RollDecay.assert_success self).
    destruct (RollDecay.assert_success self && negb (OptimizeResult.success r));
      [reflexivity|].
    change (RollDecay.omega_regression (RollDecay.set_parameters _ _))
      with (RollDecay.omega_regression self).
    destruct (RollDecay.omega_regression self) eqn:Hom; [reflexivity|].
    cbv beta iota delta [negb].
    assert (Hw : ∃ w, RollDecay.omega0 fitting = ret w).
    { unfold RollDecay.named_parameters in Hp.
      change (RollDecay.omega_regression fitting)
        with (RollDecay.omega_regression self) in Hp.
      rewrite Hom in Hp. simpl in Hp.
      destruct (RollDecay.omega0 fitting) as [e'|w]; [discriminate|].
      exists w. reflexivity. }
    destruct Hw as [w Hw].
    match goal with
    | |- context [RollDecay.omega0 ?s] =>
        rewrite (omega0_same_X s fitting eq_refl), Hw
    end.
    reflexivity.
Qed.

End FailedTrial.

Lemma integration_trial_failure_absorbed_witness :
  RollDecay.estimator (Σ:=Examples.failing_solver)
    (RollDecay.set_X (Examples.linear_model "integration" true) Examples.X4)
    [0.25; 0.75]%float Examples.X4
  = ret (Series.mk [0; 1; 2; 3]%float (replicate 4 np.inf))
  ∧ RollDecay.residuals (Σ:=Examples.failing_solver)
      (RollDecay.set_X (Examples.linear_model "integration" true) Examples.X4)
      Examples.X4 (Series.mk [0; 1; 2; 3]%float [0.5; 0.25; -0.125; -0.25]%float)
      [0.25; 0.75]%float
    = ret (replicate 4 neg_infinity)
  ∧ (RollDecay.fit (Σ:=Examples.failing_solver)
       (Examples.linear_model "integration" true) Examples.X4).2
    = ret tt.
Proof.
  destruct (integration_trial_failure_absorbed (Σ:=Examples.failing_solver)
              (Examples.linear_model "integration" true) Examples.X4
              (Series.mk [0; 1; 2; 3]%float [0.5; 0.25; -0.125; -0.25]%float)
              ([(- infinity)%float; (- infinity)%float], [infinity; infinity])
              [0.25; 0.75]%float
              (dict_of_zip ["omega0"; "zeta"] [0.25; 0.75]%float) 0.5%float
              (ValueError "Simulation failed"))
    as (Hest & _ & Hres & _ & Hfit).
  - reflexivity.
  - reflexivity.
  - vm_compute. reflexivity.
  - reflexivity.
  - repeat constructor.
  - vm_compute. reflexivity.
  - vm_compute. reflexivity.
  - vm_compute. reflexivity.
  - vm_compute. reflexivity.
  - split; [exact Hest|]. split; [exact Hres|].
    apply (Hfit (OptimizeResult.mk [0.5; 0.5]%float true)).
    vm_compute. reflexivity.
Defined.

(** C1, as stated, fails in two places. An error that is no simulation
    failure is caught as well: a coefficient name the acceleration function
    does not know makes the simulation raise [TypeError], and an empty grid
    [IndexError]; the integration residual returns the infinite series in
    both cases. And an absorbed failure does not make the fit continue: with
    an optimizer that wants a finite residual at the initial guess, as
    [scipy.optimize.least_squares] does, a simulation that fails at the
    initial guess ends the fit with that optimizer's [ValueError]. *)
Lemma bare_except_absorbs_other_errors :
  RollDecay._simulate (Σ:=Examples.collaborators true) Examples.cubic_model
    [0; 1]%float 0.125 0 (<["unknown" := 1%float]> ∅)
  = raise (TypeError "got an unexpected keyword argument")
  ∧ RollDecay.estimator_integration (Σ:=Examples.collaborators true)
      Examples.cubic_model [0; 1]%float 0.125 0 (<["unknown" := 1%float]> ∅)
    = ret (Series.mk [0; 1]%float [infinity; infinity])
  ∧ RollDecay._simulate (Σ:=Examples.collaborators true) Examples.cubic_model
      [] 0.125 0 ∅
    = raise (IndexError "index out of range")
  ∧ RollDecay.estimator_integration (Σ:=Examples.collaborators true)
      Examples.cubic_model [] 0.125 0 ∅
    = ret (Series.mk [] [])
  ∧ RollDecay.residuals (Σ:=Examples.failing_solver_checking_optimizer)
      (RollDecay.set_X Examples.cubic_model Examples.X4) Examples.X4
      (Series.mk [0; 1; 2; 3]%float [0.5; 0.25; -0.125; -0.25]%float)
      (RollDecay.initial_guess Examples.cubic_model)
    = ret (replicate 4 neg_infinity)
  ∧ (RollDecay.fit (Σ:=Examples.failing_solver_checking_optimizer)
       Examples.cubic_model Examples.X4).2
    = raise (ValueError "Residuals are not finite in the initial point.").
Proof. repeat split; vm_compute; reflexivity. Qed.

(** ** The names of the stored parameters *)

Section ParameterNames.
Context {Σ : Collaborators}.

Lemma dom_foldl_insert {A} (l : list (string * A)) (d : gmap string A) :
  dom (foldl (fun d kx => <[kx.1 := kx.2]> d) d l) = dom d ∪ list_to_set l.*1.
Proof.
  revert d. induction l as [|[k v] l IH]; intros d; simpl.
  - set_solver.
  - rewrite IH, dom_insert_L. set_solver.
Qed.

Lemma dom_dict_of_zip {A} (keys : list string) (xs : list A) :
  length keys ≤ length xs →
  dom (dict_of_zip keys xs) = list_to_set keys.
Proof.
  intros Hlen. unfold dict_of_zip.
  rewrite dom_foldl_insert, fst_zip by exact Hlen. set_solver.
Qed.

Lemma optimize_solution_length (self : RollDecay.obj) (X : DataFrame.t)
    (r : OptimizeResult.t) :
  solution_as_long_as_x0 →
  RollDecay.optimize self X = ret r →
  length (OptimizeResult.x r) = length (RollDecay.parameter_names self).
Proof.
  intros Hls Hopt. unfold RollDecay.optimize in Hopt.
  destruct (DataFrame.getitem X (RollDecay.y_key self)) as [e|ys];
    [discriminate|]. simpl in Hopt.
  destruct (RollDecay.bounds self) as [e|bnds]; [discriminate|]. simpl in Hopt.
  rewrite (Hls _ _ _ _ _ _ _ _ Hopt). unfold RollDecay.initial_guess.
  apply length_map.
Qed.

Lemma parameter_names_set (self : RollDecay.obj) :
  (list_to_set (RollDecay.parameter_names self) : gset string)
  = (list_to_set (signature (RollDecay.calculate_acceleration self)) : gset string)
      ∖ ({[ RollDecay.phi_key self; RollDecay.phi1d_key self ]}
           ∪ (if RollDecay.omega_regression self then ∅ else {[ "omega0" ]})).
Proof.
  unfold RollDecay.parameter_names. rewrite list_to_set_elements_L.
  destruct (RollDecay.omega_regression self); simpl; set_solver.
Qed.

(** C9: after a fit that has returned, the stored parameter set has exactly
    the declared coefficient names: the parameters of the acceleration
    function without the two state variables, and ['omega0'] as well when the
    natural frequency is fixed. *)
Theorem fitted_parameters_are_declared (self self' : RollDecay.obj)
    (X : DataFrame.t) :
  solution_as_long_as_x0 →
  RollDecay.fit self X = (self', ret tt) →
  ∃ p : gmap string float,
    RollDecay.parameters self' = Some p ∧ dom p = declared_names self.
Proof.
  intros Hls. unfold RollDecay.fit.
  destruct (RollDecay.optimize (RollDecay.set_X self X) X) as [e|r] eqn:Hopt;
    [discriminate|].
  pose proof (optimize_solution_length _ _ _ Hls Hopt) as Hlen.
  pose proof (parameter_names_set self) as Hnames.
  change (RollDecay.parameter_names (RollDecay.set_X self X))
    with (RollDecay.parameter_names self) in Hlen.
  simpl.
  destruct (RollDecay.assert_success self && negb (OptimizeResult.success r));
    [discriminate|].
  destruct (RollDecay.omega_regression self) eqn:Hom; simpl.
  - intros [= <-]. simpl. eexists. split; [reflexivity|].
    change (RollDecay.parameter_names _) with (RollDecay.parameter_names self).
    rewrite dom_dict_of_zip by lia. rewrite Hnames.
    unfold declared_names. rewrite Hom. set_solver.
  - destruct (RollDecay.omega0 _) as [e|w]; [discriminate|].
    intros [= <-]. simpl. eexists. split; [reflexivity|].
    change (RollDecay.parameter_names _) with (RollDecay.parameter_names self).
    rewrite dom_insert_L, dom_dict_of_zip by lia. rewrite Hnames.
    unfold declared_names. rewrite Hom.
    apply set_eq. intros k.
    destruct (decide (k = "omega0")); set_solver.
Qed.

End ParameterNames.

Lemma fitted_parameters_are_declared_witness :
  ∃ p : gmap string float,
    RollDecay.parameters
      (RollDecay.fit (Σ:=Examples.collaborators true)
         (Examples.linear_model "integration" false) Examples.X4).1 = Some p
    ∧ dom p = declared_names (Examples.linear_model "integration" false).
Proof.
  apply (fitted_parameters_are_declared (Σ:=Examples.collaborators true)
           (Examples.linear_model "integration" false) _ Examples.X4
           (one_evaluation_solution_as_long_as_x0 true)).
  vm_compute. reflexivity.
Defined.

(** ** A fit that raises, then [predict] *)

Section FailedFit.
Context {Σ : Collaborators}.

Lemma check_is_fitted_after_init (self : RollDecay.obj) (b : bool) :
  RollDecay.is_fitted_ self = Some b →
  RollDecay.check_is_fitted self "is_fitted_" = ret tt.
Proof.
  intros Hb. unfold RollDecay.check_is_fitted, RollDecay.hasattr. simpl.
  rewrite Hb. reflexivity.
Qed.

(** C10 on the code: a fit that raises on the success assertion leaves the
    flag [False] and stores no parameter set; a [predict] after it passes
    [check_is_fitted], because the attribute [is_fitted_] exists, and raises
    [AttributeError] for the missing [parameters], not [NotFittedError]. *)
Theorem predict_after_failed_fit (self : RollDecay.obj) (X X' : DataFrame.t)
    (r : OptimizeResult.t) (phi0 phi1d0 : float) :
  RollDecay.is_fitted_ self = Some false →
  RollDecay.parameters self = None →
  RollDecay.assert_success self = true →
  RollDecay.optimize (RollDecay.set_X self X) X = ret r →
  OptimizeResult.success r = false →
  DataFrame.getitem_iloc0 X' (RollDecay.phi_key self) = ret phi0 →
  DataFrame.getitem_iloc0 X' (RollDecay.phi1d_key self) = ret phi1d0 →
  (RollDecay.fit self X).2 = raise AssertionError
  ∧ RollDecay.is_fitted_ (RollDecay.fit self X).1 = Some false
  ∧ RollDecay.parameters (RollDecay.fit self X).1 = None
  ∧ RollDecay.check_is_fitted (RollDecay.fit self X).1 "is_fitted_" = ret tt
  ∧ RollDecay.predict (RollDecay.fit self X).1 X'
    = raise (AttributeError "parameters").
Proof.
  intros Hflag Hpar Hassert Hopt Hfail Hphi Hphi1d.
  assert (Hfit : RollDecay.fit self X
                 = (RollDecay.set_result (RollDecay.set_X self X) r,
                    raise AssertionError)).
  { unfold RollDecay.fit. rewrite Hopt. simpl. rewrite Hassert, Hfail.
    reflexivity. }
  rewrite Hfit. simpl.
  assert (Hcheck : RollDecay.check_is_fitted
                     (RollDecay.set_result (RollDecay.set_X self X) r)
                     "is_fitted_" = ret tt).
  { apply (check_is_fitted_after_init _ false). exact Hflag. }
  repeat split; try assumption.
  unfold RollDecay.predict. rewrite Hcheck. simpl.
  rewrite Hphi. simpl. rewrite Hphi1d. simpl. rewrite Hpar. reflexivity.
Qed.

End FailedFit.

Lemma predict_after_failed_fit_witness :
  RollDecay.predict (Σ:=Examples.collaborators false)
    (RollDecay.fit (Σ:=Examples.collaborators false)
       (Examples.linear_model "integration" true) Examples.X4).1 Examples.X4
  = raise (AttributeError "parameters").
Proof.
  assert (Hopt : RollDecay.optimize (Σ:=Examples.collaborators false)
                   (RollDecay.set_X (Examples.linear_model "integration" true)
                      Examples.X4) Examples.X4
                 = ret (OptimizeResult.mk [0.5; 0.5]%float false))
    by (vm_compute; reflexivity).
  assert (Hphi : DataFrame.getitem_iloc0 Examples.X4
                   (RollDecay.phi_key (Examples.linear_model "integration" true))
                 = ret 0.5%float) by (vm_compute; reflexivity).
  assert (Hphi1d : DataFrame.getitem_iloc0 Examples.X4
                     (RollDecay.phi1d_key (Examples.linear_model "integration" true))
                   = ret 0.25%float) by (vm_compute; reflexivity).
  exact (proj2 (proj2 (proj2 (proj2
           (predict_after_failed_fit (Σ:=Examples.collaborators false)
              (Examples.linear_model "integration" true) Examples.X4 Examples.X4
              (OptimizeResult.mk [0.5; 0.5]%float false) 0.5%float 0.25%float
              eq_refl eq_refl eq_refl Hopt eq_refl Hphi Hphi1d))))).
Defined.

(** ** Bounds and initial guesses *)

Section Bounds.

Lemma mapM_ret {A B} (f : A → res B) (g : A → B) (l : list A) :
  Forall (fun a => f a = ret (g a)) l → mapM f l = ret (map g l).
Proof.
  induction 1 as [|a l Ha _ IH]; simpl; [reflexivity|].
  rewrite Ha. simpl. rewrite IH. reflexivity.
Qed.

(** A coefficient without an entry in [boundaries] is unconstrained. *)
Lemma bounds_of_key_default (self : RollDecay.obj) (key : string) :
  RollDecay.boundaries self !! key = None →
  RollDecay.bounds_of_key self key = ret (neg_infinity, infinity).
Proof.
  intros Hnone. unfold RollDecay.bounds_of_key, dict_get. rewrite Hnone.
  reflexivity.
Qed.

(** A coefficient with an entry of two bounds gets these two bounds. *)
Lemma bounds_of_key_given (self : RollDecay.obj) (key : string) (lo hi : float) :
  RollDecay.boundaries self !! key = Some [lo; hi] →
  RollDecay.bounds_of_key self key = ret (lo, hi).
Proof.
  intros Hsome. unfold RollDecay.bounds_of_key, dict_get. rewrite Hsome.
  reflexivity.
Qed.

(** An entry that is no pair fails the assertion of [bounds]. *)
Lemma bounds_of_key_malformed (self : RollDecay.obj) (key : string)
    (entry : list float) :
  RollDecay.boundaries self !! key = Some entry →
  length entry ≠ 2 →
  RollDecay.bounds_of_key self key = raise AssertionError.
Proof.
  intros Hsome Hlen. unfold RollDecay.bounds_of_key, dict_get. rewrite Hsome.
  destruct (decide (length entry = 2)) as [Heq|_]; [contradiction|reflexivity].
Qed.

(** The initial guess of a coefficient is the caller's, and [0.5] without. *)
Lemma initial_guess_values (self : RollDecay.obj) (i : nat) (key : string) :
  RollDecay.parameter_names self !! i = Some key →
  RollDecay.initial_guess self !! i
  = Some (match RollDecay.p0 self !! key with
          | Some guess => guess
          | None => 0.5%float
          end).
Proof.
  intros Hkey. unfold RollDecay.initial_guess.
  rewrite list_lookup_fmap, Hkey. reflexivity.
Qed.

(** With no malformed entry, [bounds] lists the lower and the upper bound of
    each coefficient in the order of [parameter_names]. *)
Lemma bounds_values (self : RollDecay.obj) :
  (∀ key entry, RollDecay.boundaries self !! key = Some entry → length entry = 2) →
  RollDecay.bounds self
  = ret (map (fun key =>
                match RollDecay.boundaries self !! key with
                | Some (lo :: _) => lo
                | _ => neg_infinity
                end) (RollDecay.parameter_names self),
         map (fun key =>
                match RollDecay.boundaries self !! key with
                | Some (_ :: hi :: _) => hi
                | _ => infinity
                end) (RollDecay.parameter_names self)).
Proof.
  intros Hwf. unfold RollDecay.bounds.
  rewrite (mapM_ret _
             (fun key =>
                (match RollDecay.boundaries self !! key with
                 | Some (lo :: _) => lo
                 | _ => neg_infinity
                 end,
                 match RollDecay.boundaries self !! key with
                 | Some (_ :: hi :: _) => hi
                 | _ => infinity
                 end))).
  - simpl. unfold fmap. change (@list_fmap) with (@map).
    rewrite !List.map_map. reflexivity.
  - apply Forall_forall. intros key _.
    destruct (RollDecay.boundaries self !! key) as [entry|] eqn:Hentry.
    + pose proof (Hwf key entry Hentry) as Hlen.
      destruct entry as [|lo [|hi [|? ?]]]; try discriminate.
      apply bounds_of_key_given. exact Hentry.
    + apply bounds_of_key_default. exact Hentry.
Qed.

(** The entries of [boundaries] after [EstimatorCubic.__init__]: the caller's,
    and the one the constructor adds under the key ['B_1_A']. *)
Lemma cubic_init_boundaries (cls_acceleration : PyFunction) (maxfev : Z)
    (bounds : gmap string (list float)) (ftol : float) (p0 : gmap string float)
    (fit_method : string) (self : RollDecay.obj) (key : string) :
  EstimatorCubic.__init__ cls_acceleration maxfev bounds ftol p0 fit_method
  = ret self →
  RollDecay.boundaries self !! key
  = match bounds !! key with
    | Some entry => Some entry
    | None => if decide (key = "B_1_A") then Some [0%float; infinity] else None
    end.
Proof.
  unfold EstimatorCubic.__init__. intros Hinit.
  apply __init___fresh in Hinit.
  destruct Hinit as (_ & _ & _ & _ & _ & _ & -> & _).
  rewrite lookup_union.
  destruct (bounds !! key) as [entry|]; simpl.
  - destruct (_ !! key); reflexivity.
  - destruct (decide (key = "B_1_A")) as [->|Hne].
    + rewrite lookup_singleton_eq. reflexivity.
    + rewrite lookup_singleton_ne by congruence. reflexivity.
Qed.

(** C2 on the code: whichever variant is constructed, a coefficient the
    caller has given no bounds stays unconstrained unless its name is
    ['B_1_A']; the acceleration functions name their leading damping
    coefficient otherwise (['B_1A'] in [EstimatorCubic.simulate]), so it is
    not bounded below by zero. *)
Theorem leading_damping_bound_misses (cls_acceleration : PyFunction)
    (maxfev : Z) (bounds : gmap string (list float)) (ftol : float)
    (p0 : gmap string float) (fit_method : string) (self : RollDecay.obj)
    (key : string) :
  EstimatorCubic.__init__ cls_acceleration maxfev bounds ftol p0 fit_method
  = ret self →
  bounds !! key = None →
  key ≠ "B_1_A" →
  RollDecay.bounds_of_key self key = ret (neg_infinity, infinity).
Proof.
  intros Hinit Hcaller Hkey. apply bounds_of_key_default.
  rewrite (cubic_init_boundaries _ _ _ _ _ _ _ key Hinit), Hcaller.
  destruct (decide (key = "B_1_A")); [contradiction|reflexivity].
Qed.

End Bounds.

Lemma leading_damping_bound_misses_witness :
  "B_1A" ∈ RollDecay.parameter_names Examples.cubic_model
  ∧ RollDecay.bounds_of_key Examples.cubic_model "B_1A"
    = ret (neg_infinity, infinity)
  ∧ RollDecay.bounds Examples.cubic_model
    = ret (replicate 6 neg_infinity, replicate 6 infinity).
Proof.
  split; [|split].
  - vm_compute. repeat (first [left | right; left | right]).
  - apply (leading_damping_bound_misses Examples.cubic_acceleration
             EstimatorCubic.default_maxfev ∅ EstimatorCubic.default_ftol ∅
             EstimatorCubic.default_fit_method Examples.cubic_model "B_1A").
    + vm_compute. reflexivity.
    + reflexivity.
    + discriminate.
  - vm_compute. reflexivity.
Defined.

(** ** The order of floats and [np.argmax] *)

Section FloatOrder.

Ltac compare_cases :=
  repeat match goal with
    | |- context [(?a ?= ?b)%Z] => destruct (Z.compare_spec a b)
    | |- context [PosDef.Pos.compare_cont Eq ?a ?b] =>
        change (PosDef.Pos.compare_cont Eq a b) with (Pos.compare a b);
        destruct (Pos.compare_spec a b)
    end.

Lemma SFcompare_key (x y : spec_float) :
  x ≠ S754_nan → y ≠ S754_nan →
  match SFcompare x y with
  | Some Lt => key_lt (SFkey x) (SFkey y)
  | Some Eq => SFkey x = SFkey y
  | Some Gt => key_lt (SFkey y) (SFkey x)
  | None => False
  end.
Proof.
  unfold key_lt.
  destruct x as [sx|sx| |sx mx ex], y as [sy|sy| |sy my ey]; intros Hx Hy;
    try congruence; try destruct sx; try destruct sy; simpl;
    compare_cases; simpl; subst; try reflexivity; try lia.
Qed.

Lemma is_nan_false (v : float) :
  is_nan v = false → Prim2SF v ≠ S754_nan.
Proof.
  unfold is_nan. rewrite FloatAxioms.eqb_spec. intros Hv Hnan.
  rewrite Hnan in Hv. discriminate.
Qed.

Lemma leb_key (a b : float) :
  is_nan a = false → is_nan b = false →
  (a <=? b)%float = true ↔ key_le (fkey a) (fkey b).
Proof.
  intros Ha%is_nan_false Hb%is_nan_false.
  rewrite FloatAxioms.leb_spec. unfold SFleb, fkey.
  pose proof (SFcompare_key _ _ Ha Hb) as Hcmp.
  destruct (SFcompare (Prim2SF a) (Prim2SF b)) as [[| |]|]; [| | |contradiction].
  - rewrite Hcmp. unfold key_le. split; [lia|reflexivity].
  - unfold key_lt, key_le in *. split; [lia|reflexivity].
  - unfold key_lt, key_le in *. split; [discriminate|lia].
Qed.

Lemma ltb_key (a b : float) :
  is_nan a = false → is_nan b = false →
  (a <? b)%float = true ↔ key_lt (fkey a) (fkey b).
Proof.
  intros Ha%is_nan_false Hb%is_nan_false.
  rewrite FloatAxioms.ltb_spec. unfold SFltb, fkey.
  pose proof (SFcompare_key _ _ Ha Hb) as Hcmp.
  destruct (SFcompare (Prim2SF a) (Prim2SF b)) as [[| |]|]; [| | |contradiction].
  - rewrite Hcmp. unfold key_lt. split; [discriminate|lia].
  - unfold key_lt in *. split; [lia|reflexivity].
  - unfold key_lt in *. split; [discriminate|lia].
Qed.

Lemma leb_refl (v : float) : is_nan v = false → (v <=? v)%float = true.
Proof. intros Hv. apply leb_key; [assumption..|]. unfold key_le. lia. Qed.

Lemma not_leb_ltb (a b : float) :
  is_nan a = false → is_nan b = false →
  (a <=? b)%float = false → (b <? a)%float = true.
Proof.
  intros Ha Hb Hle. apply ltb_key; [assumption..|].
  destruct (decide (key_le (fkey a) (fkey b))) as [Hk|Hk].
  - apply (leb_key a b Ha Hb) in Hk. congruence.
  - unfold key_le, key_lt in *. lia.
Qed.

Lemma leb_ltb_trans (u m v : float) :
  is_nan u = false → is_nan m = false → is_nan v = false →
  (u <=? m)%float = true → (m <? v)%float = true → (u <? v)%float = true.
Proof.
  intros Hu Hm Hv Hum%leb_key Hmv%ltb_key; try assumption.
  apply ltb_key; [assumption..|]. unfold key_le, key_lt in *. lia.
Qed.

Lemma ltb_leb (u v : float) :
  is_nan u = false → is_nan v = false →
  (u <? v)%float = true → (u <=? v)%float = true.
Proof.
  intros Hu Hv Huv%ltb_key; try assumption.
  apply leb_key; [assumption..|]. unfold key_le, key_lt in *. lia.
Qed.

(** The loop of [np.argmax] keeps the first largest element seen so far. *)
Lemma argmax_loop_dominant (rest pre : list float) (mp : float) (max_ind : nat) :
  Forall (fun v => is_nan v = false) (pre ++ rest) →
  pre !! max_ind = Some mp →
  (∀ j v, pre !! j = Some v →
     (v <=? mp)%float = true ∧ (j < max_ind → (v <? mp)%float = true)) →
  dominant (pre ++ rest) (np.argmax_loop mp max_ind (length pre) rest).
Proof.
  revert pre mp max_ind.
  induction rest as [|v rest IH]; intros pre mp max_ind Hnan Hmp Hinv.
  - simpl. rewrite app_nil_r. exists mp. split; [exact Hmp|exact Hinv].
  - assert (Hmp_nan : is_nan mp = false).
    { apply Forall_app in Hnan as [Hpre _].
      rewrite Forall_forall in Hpre. apply Hpre.
      apply list_elem_of_lookup. eauto. }
    assert (Hv_nan : is_nan v = false).
    { apply Forall_app in Hnan as [_ Hrest]. inversion Hrest; assumption. }
    assert (Hpre_nan : ∀ j u, pre !! j = Some u → is_nan u = false).
    { intros j u Hu. apply Forall_app in Hnan as [Hpre _].
      rewrite Forall_forall in Hpre. apply Hpre.
      apply list_elem_of_lookup. eauto. }
    assert (Hmax : max_ind < length pre) by (eapply lookup_lt_Some; eauto).
    replace (pre ++ v :: rest) with ((pre ++ [v]) ++ rest) in *
      by (rewrite <- app_assoc; reflexivity).
    simpl. destruct (v <=? mp)%float eqn:Hle; simpl.
    + replace (S (length pre)) with (length (pre ++ [v]))
        by (rewrite length_app; simpl; lia).
      apply IH; [exact Hnan| |].
      * rewrite lookup_app_l by exact Hmax. exact Hmp.
      * intros j u Hu.
        destruct (decide (j < length pre)) as [Hj|Hj].
        -- rewrite lookup_app_l in Hu by exact Hj. apply Hinv. exact Hu.
        -- rewrite lookup_app_r in Hu by lia.
           destruct (j - length pre) as [|k] eqn:Hk; [|destruct k; discriminate].
           simpl in Hu. injection Hu as <-. split; [exact Hle|lia].
    + rewrite Hv_nan.
      replace (S (length pre)) with (length (pre ++ [v]))
        by (rewrite length_app; simpl; lia).
      pose proof (not_leb_ltb v mp Hv_nan Hmp_nan Hle) as Hlt.
      apply IH; [exact Hnan| |].
      * rewrite lookup_app_r by lia. rewrite Nat.sub_diag. reflexivity.
      * intros j u Hu.
        destruct (decide (j < length pre)) as [Hj|Hj].
        -- rewrite lookup_app_l in Hu by exact Hj.
           pose proof (Hpre_nan j u Hu) as Hu_nan.
           destruct (Hinv j u Hu) as [Hum _].
           pose proof (leb_ltb_trans u mp v Hu_nan Hmp_nan Hv_nan Hum Hlt) as Huv.
           split; [apply ltb_leb; assumption|intros _; exact Huv].
        -- rewrite lookup_app_r in Hu by lia.
           destruct (j - length pre) as [|k] eqn:Hk; [|destruct k; discriminate].
           simpl in Hu. injection Hu as <-.
           split; [apply leb_refl; exact Hv_nan|lia].
Qed.

(** [np.argmax] of an array without [nan]: the first of its largest
    elements, the element at index zero included. *)
Lemma argmax_dominant (a : list float) :
  a ≠ [] →
  Forall (fun v => is_nan v = false) a →
  ∃ idx, np.argmax a = ret idx ∧ dominant a idx.
Proof.
  destruct a as [|v rest]; [congruence|]. intros _ Hnan.
  assert (Hv : is_nan v = false) by (inversion Hnan; assumption).
  unfold np.argmax. rewrite Hv. eexists. split; [reflexivity|].
  apply (argmax_loop_dominant rest [v] v 0 Hnan); [reflexivity|].
  intros j u Hu. destruct j as [|j]; [|discriminate].
  simpl in Hu. injection Hu as <-. split; [apply leb_refl; exact Hv|lia].
Qed.

End FloatOrder.

(** ** The fixed natural frequency *)

Section NaturalFrequency.
Context {Σ : Collaborators}.

Lemma rfftfreq_length (n : nat) (nondim : list float) :
  np.rfftfreq n = ret nondim → length nondim = n / 2 + 1.
Proof.
  unfold np.rfftfreq. destruct n as [|n]; [discriminate|].
  intros [= <-]. rewrite length_map, length_seq. reflexivity.
Qed.

(** C3, as the code has it: with a fixed natural frequency, the estimate is
    read off the magnitudes of the real transform of the roll-angle column as
    it is (no trend is removed); the bin is the first largest among all the
    bins, the zero bin included; its frequency is the bin's [rfftfreq] value
    times the reciprocal of the mean time difference, and the estimate is
    [2*pi] times that. The value depends on the stored series only, and every
    trial's parameter set holds it under ['omega0']. *)
Theorem fixed_natural_frequency (self : RollDecay.obj) (X : DataFrame.t)
    (series : Series.t) (nondim dft : list float) :
  RollDecay.omega_regression self = false →
  RollDecay.X self = Some X →
  DataFrame.getitem X "phi" = ret series →
  np.rfftfreq (length (Series.values series)) = ret nondim →
  rfft_abs (Series.values series) = ret dft →
  length dft = length nondim →
  Forall (fun v => is_nan v = false) dft →
  ∃ (index : nat) (f w : float),
    np.argmax dft = ret index
    ∧ dominant dft index
    ∧ nondim !! index = Some f
    ∧ w = (2 * np.pi
           * (f * (1 / np.mean (np.diff (Series.index series)))))%float
    ∧ RollDecay.omega0 self = ret w
    ∧ ∀ x : list float,
        ∃ p : gmap string float,
          RollDecay.named_parameters self x = ret p ∧ p !! "omega0" = Some w.
Proof.
  intros Hom HX Hphi Hfreq Hdft Hlen Hnan.
  pose proof (rfftfreq_length _ _ Hfreq) as Hbins.
  assert (Hne : dft ≠ []).
  { intros ->. simpl in Hlen. lia. }
  destruct (argmax_dominant dft Hne Hnan) as (index & Harg & Hdom).
  assert (Hidx : index < length nondim).
  { destruct Hdom as (m & Hm & _). rewrite <- Hlen.
    eapply lookup_lt_Some. exact Hm. }
  destruct (lookup_lt_is_Some_2 nondim index Hidx) as [f Hf].
  set (fs := (1 / np.mean (np.diff (Series.index series)))%float).
  assert (Homega : RollDecay.omega0 self = ret (2 * np.pi * (f * fs))%float).
  { unfold RollDecay.omega0. rewrite HX. simpl. rewrite Hphi. simpl.
    unfold RollDecay.fft. rewrite Hfreq. simpl. rewrite Hdft. simpl.
    unfold RollDecay.fft_omega0. rewrite Harg. simpl.
    unfold seq_getitem. fold fs.
    change (@map float float) with (@fmap list _ float float).
    rewrite list_lookup_fmap, Hf. reflexivity. }
  exists index, f, (2 * np.pi * (f * fs))%float.
  repeat split; try assumption.
  intros x. unfold RollDecay.named_parameters. rewrite Hom. simpl.
  rewrite Homega. simpl. eexists. split; [reflexivity|].
  apply lookup_insert_eq.
Qed.

End NaturalFrequency.

Lemma fixed_natural_frequency_witness :
  RollDecay.fft (Σ:=Examples.collaborators true)
    (Series.mk [0; 1; 2; 3]%float [0.5; 0.25; -0.125; -0.25]%float)
  = ret ([0; 0.25; 0.5]%float,
         [0.375; 0x1.99ccc999fff00p-1; 0.375]%float)
  ∧ RollDecay.omega0 (Σ:=Examples.collaborators true)
      (RollDecay.set_X (Examples.linear_model "integration" false) Examples.X4)
    = ret (2 * np.pi * 0.25)%float
  ∧ ∀ x : list float,
      ∃ p : gmap string float,
        RollDecay.named_parameters (Σ:=Examples.collaborators true)
          (RollDecay.set_X (Examples.linear_model "integration" false)
             Examples.X4) x = ret p
        ∧ p !! "omega0" = Some (2 * np.pi * 0.25)%float.
Proof.
  assert (Hphi : DataFrame.getitem Examples.X4 "phi"
                 = ret (Series.mk [0; 1; 2; 3]%float
                          [0.5; 0.25; -0.125; -0.25]%float))
    by (vm_compute; reflexivity).
  assert (Hfreq : np.rfftfreq 4 = ret [0; 0.25; 0.5]%float)
    by (vm_compute; reflexivity).
  assert (Hdft : Examples.short_rfft_abs [0.5; 0.25; -0.125; -0.25]%float
                 = ret [0.375; 0x1.99ccc999fff00p-1; 0.375]%float)
    by (vm_compute; reflexivity).
  assert (Hnan : Forall (fun v => is_nan v = false)
                   [0.375; 0x1.99ccc999fff00p-1; 0.375]%float)
    by (repeat constructor).
  destruct (fixed_natural_frequency (Σ:=Examples.collaborators true)
              (RollDecay.set_X (Examples.linear_model "integration" false)
                 Examples.X4)
              Examples.X4
              (Series.mk [0; 1; 2; 3]%float [0.5; 0.25; -0.125; -0.25]%float)
              [0; 0.25; 0.5]%float [0.375; 0x1.99ccc999fff00p-1; 0.375]%float
              eq_refl eq_refl Hphi Hfreq Hdft eq_refl Hnan)
    as (index & f & w & Harg & _ & Hf & Hw & Hom & Hall).
  assert (Hindex : index = 1) by (vm_compute in Harg; congruence).
  subst index. injection Hf as <-.
  assert (Hvalue : w = (2 * np.pi * 0.25)%float)
    by (rewrite Hw; vm_compute; reflexivity).
  subst w. rewrite Hvalue in Hom, Hall.
  split; [vm_compute; reflexivity|]. split; [exact Hom|exact Hall].
Defined.

(** C3, as stated, fails: the zero bin is not excluded and no trend is
    removed. For magnitudes [4, 1, 3] the code picks the zero bin and returns
    the frequency [0], where the dominant bin after the zero bin gives [pi];
    and a signal that oscillates at half the sampling rate about an offset of
    one gets the natural frequency [0]. *)
Lemma zero_bin_is_not_excluded :
  RollDecay.fft_omega0 [0; 0.25; 0.5]%float [4; 1; 3]%float = ret 0%float
  ∧ fft_omega0_excluding_zero_bin [0; 0.25; 0.5]%float [4; 1; 3]%float
    = ret np.pi
  ∧ RollDecay.omega0 (Σ:=Examples.collaborators true)
      (RollDecay.set_X (Examples.linear_model "integration" false)
         Examples.X4_offset) = ret 0%float.
Proof. repeat split; vm_compute; reflexivity. Qed.

(** ** Parameters the acceleration function does not know *)

Section UnknownParameter.
Context {Σ : Collaborators}.

(** A keyword call with a key outside the signature raises [TypeError]; which
    of the binding errors it is depends on the keys alone. *)
Lemma call_unrecognized (f : PyFunction) (k1 k2 : string)
    (kwargs : gmap string float) (name : string) :
  is_Some (kwargs !! name) →
  name ∉ signature f →
  ∃ msg, ∀ v1 v2 : float,
    call f [(k1, v1); (k2, v2)] kwargs = raise (TypeError msg).
Proof.
  intros Hin Hout.
  destruct (decide (is_Some (kwargs !! k1) ∨ is_Some (kwargs !! k2)))
    as [Hdup|Hdup].
  - exists "got multiple values for keyword argument". intros v1 v2.
    unfold call, bind_arguments. rewrite decide_True; [reflexivity|].
    destruct Hdup as [Hd|Hd].
    + apply Exists_cons_hd. exact Hd.
    + apply Exists_cons_tl, Exists_cons_hd. exact Hd.
  - exists "got an unexpected keyword argument". intros v1 v2.
    unfold call, bind_arguments. rewrite decide_False.
    + rewrite decide_True; [reflexivity|].
      apply Exists_exists. exists name. split; [|exact Hout].
      apply elem_of_elements. rewrite dom_foldl_insert.
      apply elem_of_union_l, elem_of_dom. exact Hin.
    + intros Hex. apply Hdup.
      apply Exists_cons in Hex as [Hd|Hex]; [left; exact Hd|].
      apply Exists_cons in Hex as [Hd|Hex]; [right; exact Hd|].
      inversion Hex.
Qed.

(** C8: with a coefficient name the acceleration function does not know,
    every evaluation of the derivative raises [TypeError], so no step can be
    taken; the solver takes the derivative at the initial state first, and
    [_simulate] raises that error. *)
Theorem unknown_parameter_reported_first (self : RollDecay.obj) (t0 : float)
    (t_rest : list float) (phi0 phi1d0 : float)
    (parameters : gmap string float) (name : string) :
  derivative_taken_first →
  is_Some (parameters !! name) →
  name ∉ signature (RollDecay.calculate_acceleration self) →
  increasing (map (fun ti => (ti - t0)%float) (t0 :: t_rest)) = true →
  ∃ msg,
    (∀ τ phi phi1d : float,
       RollDecay.roll_decay_time_step self τ [phi; phi1d] parameters
       = raise (TypeError msg))
    ∧ RollDecay._simulate self (t0 :: t_rest) phi0 phi1d0 parameters
      = raise (TypeError msg).
Proof.
  intros Hfirst Hin Hout Hinc.
  destruct (call_unrecognized (RollDecay.calculate_acceleration self)
              "phi1d" "phi" parameters name Hin Hout) as [msg Hcall].
  exists msg.
  assert (Hstep : ∀ τ phi phi1d : float,
            RollDecay.roll_decay_time_step self τ [phi; phi1d] parameters
            = raise (TypeError msg)).
  { intros τ phi phi1d. unfold RollDecay.roll_decay_time_step. simpl.
    rewrite Hcall. reflexivity. }
  split; [exact Hstep|].
  destruct (_simulate_initial_state self t0 t_rest phi0 phi1d0 parameters)
    as (tb & Hlast & ->).
  rewrite (Hfirst _ (t0 - t0)%float tb [phi0; phi1d0] _ (TypeError msg));
    [reflexivity|reflexivity|exact Hlast|exact Hinc|apply Hstep].
Qed.

End UnknownParameter.

(** The stand-in solver of the examples takes the derivative first. *)
Lemma euler_ivp_derivative_taken_first (success : bool) :
  derivative_taken_first (Σ:=Examples.collaborators success).
Proof.
  intros f ta tb y0 t_eval e _ _ _ Hf. simpl. unfold Examples.euler_ivp.
  simpl. rewrite Hf. reflexivity.
Qed.

Lemma unknown_parameter_reported_first_witness :
  ∃ msg,
    (∀ τ phi phi1d : float,
       RollDecay.roll_decay_time_step Examples.cubic_model τ [phi; phi1d]
         (<["B_1" := 0.5%float]> ∅)
       = raise (TypeError msg))
    ∧ RollDecay._simulate (Σ:=Examples.collaborators true) Examples.cubic_model
        (0%float :: [1; 2]%float) 0.125 0 (<["B_1" := 0.5%float]> ∅)
      = raise (TypeError msg).
Proof.
  apply (unknown_parameter_reported_first (Σ:=Examples.collaborators true)
           Examples.cubic_model 0%float [1; 2]%float 0.125%float 0%float
           (<["B_1" := 0.5%float]> ∅) "B_1"
           (euler_ivp_derivative_taken_first true)).
  - rewrite lookup_insert_eq. eexists. reflexivity.
  - apply (bool_decide_unpack _). vm_compute. exact I.
  - vm_compute. reflexivity.
Defined.

(** ** Results for the database *)

Section Dimensionalization.
Context {L : EquationLibrary}.

Lemma insert_default (inputs : gmap string float) (key : string) (v : float) :
  (if decide (is_Some (inputs !! key)) then inputs else <[key := v]> inputs)
  = <[key := dict_get inputs key v]> inputs.
Proof.
  unfold dict_get. destruct (decide (is_Some (inputs !! key))) as [[x Hx]|Hnone].
  - rewrite Hx. symmetry. apply insert_id. exact Hx.
  - destruct (inputs !! key) as [x|] eqn:Hx; [|reflexivity].
    exfalso. apply Hnone. eexists. reflexivity.
Qed.

Lemma combine_first_absent (a b : gmap string float) (key : string) :
  a !! key = None → EstimatorCubic.combine_first a b !! key = b !! key.
Proof.
  intros Ha. unfold EstimatorCubic.combine_first.
  rewrite lookup_union_with, Ha. destruct (b !! key); reflexivity.
Qed.

(** C6, as the code has it: with a stored parameter set and metadata that
    hold ['Volume'], the inputs of the closed forms are the metadata with
    [g = 9.81] and [rho = 1000] where absent and [m = Volume*rho], overlaid
    by the fitted parameters; the mapping returned is the super-class
    mapping with ['A_44'] from the effective-inertia closed form, the
    additional parameters, and ['omega0'] from the natural-frequency closed
    form evaluated with ['A_44'] among its inputs. *)
Theorem result_for_database_contents (self : RollDecay.obj)
    (meta_data s0 parameters additional : gmap string float)
    (Volume A_44 s_A_44 omega0 : float) :
  let g := dict_get meta_data "g" 0x1.39eb851eb851fp+3%float in
  let rho := dict_get meta_data "rho" 1000%float in
  let inputs :=
    EstimatorCubic.combine_first parameters
      (<["m" := (Volume * rho)%float]> (<["rho" := rho]> (<["g" := g]> meta_data))) in
  super_result_for_database self meta_data = ret s0 →
  meta_data !! "Volume" = Some Volume →
  RollDecay.parameters self = Some parameters →
  run functions_A44 inputs = ret A_44 →
  EstimatorCubic.calculate_additional_parameters self A_44 = ret additional →
  (additional ∪ <["A_44" := A_44]> s0) !! "A_44" = Some s_A_44 →
  run functions_omega0 (<["A_44" := s_A_44]> inputs) = ret omega0 →
  EstimatorCubic.result_for_database self meta_data
  = ret (<["omega0" := omega0]> (additional ∪ <["A_44" := A_44]> s0))
  ∧ (parameters !! "g" = None → inputs !! "g" = Some g)
  ∧ (parameters !! "rho" = None → inputs !! "rho" = Some rho)
  ∧ (parameters !! "m" = None → inputs !! "m" = Some (Volume * rho)%float).
Proof.
  intros g rho inputs Hsuper HVolume Hparameters HA44 Hadditional HsA44 Homega0.
  split; [|repeat split].
  - unfold EstimatorCubic.result_for_database. rewrite Hsuper. simpl.
    rewrite (insert_default meta_data "g"). fold g.
    rewrite (insert_default (<["g" := g]> meta_data) "rho").
    assert (Hrho : dict_get (<["g" := g]> meta_data) "rho" 1000%float = rho).
    { unfold dict_get, rho. rewrite lookup_insert_ne by discriminate.
      reflexivity. }
    rewrite Hrho. unfold dict_getitem.
    rewrite lookup_insert_ne by discriminate.
    rewrite lookup_insert_ne by discriminate.
    rewrite HVolume. simpl. rewrite lookup_insert_eq. simpl.
    rewrite Hparameters. simpl. fold inputs. rewrite HA44. simpl.
    rewrite lookup_insert_eq. simpl. rewrite Hadditional. simpl.
    rewrite HsA44. simpl. rewrite Homega0. reflexivity.
  - intros Hnone. unfold inputs. rewrite (combine_first_absent _ _ _ Hnone).
    rewrite lookup_insert_ne by discriminate.
    rewrite lookup_insert_ne by discriminate.
    apply lookup_insert_eq.
  - intros Hnone. unfold inputs. rewrite (combine_first_absent _ _ _ Hnone).
    rewrite lookup_insert_ne by discriminate.
    apply lookup_insert_eq.
  - intros Hnone. unfold inputs. rewrite (combine_first_absent _ _ _ Hnone).
    apply lookup_insert_eq.
Qed.

End Dimensionalization.

(** C6, as stated, fails in two places. The displaced volume has no
    default: with the metadata left empty, as the default argument has it, a
    fitted model raises [KeyError] for ['Volume'], and so it does with [rho]
    and [g] given. And nothing makes the two results positive: with the
    closed forms [A_44 = GM*g*m/C_1A] and [omega0 = sqrt(GM*g*m/A_44)] of the
    examples, a negative [GM] gives a negative [A_44], and a displaced volume
    of zero gives [A_44 = 0] and an [omega0] that is [nan]. *)
Lemma volume_unguarded_and_signs_unchecked :
  EstimatorCubic.result_for_database (L:=Examples.equation_library)
    Examples.fitted_cubic_model ∅
  = raise (KeyError "Volume")
  ∧ EstimatorCubic.result_for_database (L:=Examples.equation_library)
      Examples.fitted_cubic_model
      (<["rho" := 1025%float]> (<["g" := 9.8125%float]> ∅))
    = raise (KeyError "Volume")
  ∧ RollDecay.is_fitted_ Examples.fitted_cubic_model = Some true
  ∧ (s <~ EstimatorCubic.result_for_database (L:=Examples.equation_library)
            Examples.fitted_cubic_model
            (<["GM" := (-2)%float]> (<["Volume" := 3%float]> ∅)) ;;
     A_44 <~ dict_getitem s "A_44" ;;
     ret (A_44, (0 <? A_44)%float))
    = ret ((-117720)%float, false)
  ∧ (s <~ EstimatorCubic.result_for_database (L:=Examples.equation_library)
            Examples.fitted_cubic_model
            (<["GM" := 2%float]> (<["Volume" := 0%float]> ∅)) ;;
     A_44 <~ dict_getitem s "A_44" ;;
     omega0 <~ dict_getitem s "omega0" ;;
     ret (A_44, (0 <? A_44)%float, is_nan omega0, (0 <? omega0)%float))
    = ret (0%float, false, true, false).
Proof. repeat split; vm_compute; reflexivity. Qed.

Lemma result_for_database_contents_witness :
  ∃ (s : gmap string float) (A_44 omega0 : float),
    EstimatorCubic.result_for_database (L:=Examples.equation_library)
      Examples.fitted_cubic_model (<["GM" := 2%float]> (<["Volume" := 3%float]> ∅))
    = ret s
    ∧ s !! "A_44" = Some A_44
    ∧ s !! "omega0" = Some omega0
    ∧ (0 <? A_44)%float = true
    ∧ (0 <? omega0)%float = true.
Proof.
  pose (meta_data := (<["GM" := 2%float]> (<["Volume" := 3%float]> ∅))
                     : gmap string float).
  pose (parameters := dict_of_zip (RollDecay.parameter_names Examples.cubic_model)
                        (replicate 6 0.5%float)).
  pose (inputs :=
          EstimatorCubic.combine_first parameters
            (<["m" := (3 * 1000)%float]>
               (<["rho" := 1000%float]>
                  (<["g" := 0x1.39eb851eb851fp+3%float]> meta_data)))).
  pose (A_44 := returned 0%float
                  (Examples.run_example Examples.A44_example inputs)).
  pose (additional :=
          returned ∅
            (EstimatorCubic.calculate_additional_parameters
               (L:=Examples.equation_library) Examples.fitted_cubic_model A_44)).
  pose (omega0 := returned 0%float
                    (Examples.run_example Examples.omega0_example
                       (<["A_44" := A_44]> inputs))).
  assert (HA44 : Examples.run_example Examples.A44_example inputs = ret A_44)
    by (vm_compute; reflexivity).
  assert (Hadd : EstimatorCubic.calculate_additional_parameters
                   (L:=Examples.equation_library) Examples.fitted_cubic_model A_44
                 = ret additional)
    by (vm_compute; reflexivity).
  assert (Homega0 : Examples.run_example Examples.omega0_example
                      (<["A_44" := A_44]> inputs) = ret omega0)
    by (vm_compute; reflexivity).
  exists (<["omega0" := omega0]> (additional ∪ <["A_44" := A_44]> parameters)),
    A_44, omega0.
  split; [|split; [|split; [|split]]].
  - refine (proj1 (result_for_database_contents (L:=Examples.equation_library)
             Examples.fitted_cubic_model meta_data parameters parameters
             additional 3%float A_44 A_44 omega0 _ _ _ HA44 Hadd _ Homega0));
      vm_compute; reflexivity.
  - vm_compute. reflexivity.
  - vm_compute. reflexivity.
  - vm_compute. reflexivity.
  - vm_compute. reflexivity.
Defined.

(** ** A grid of one sample *)

Section SingleSample.
Context {Σ : Collaborators}.

(** On a grid of one sample the span handed to the solver has length zero,
    and the frame returned is made of the rows the solver returns for it:
    [_simulate] has no case of its own for this grid. *)
Lemma _simulate_single_sample (self : RollDecay.obj) (t0 phi0 phi1d0 : float)
    (parameters : gmap string float) :
  RollDecay._simulate self [t0] phi0 phi1d0 parameters
  = (simulation_result <~
       solve_ivp
         (fun τ states => RollDecay.roll_decay_time_step self τ states parameters)
         ((t0 - t0)%float, (t0 - t0)%float) [phi0; phi1d0] [(t0 - t0)%float] ;;
     if negb (OdeResult.success simulation_result) then
       raise (ValueError "Simulation failed")
     else
       row0 <~ seq_getitem (OdeResult.y simulation_result) 0 ;;
       df <~ DataFrame.setitem_array (DataFrame.empty [t0])
               (RollDecay.phi_key self) row0 ;;
       row1 <~ seq_getitem (OdeResult.y simulation_result) 1 ;;
       df <~ DataFrame.setitem_array df (RollDecay.phi1d_key self) row1 ;;
       ret df).
Proof. reflexivity. Qed.

End SingleSample.

(** ** The key of the constructor's bound *)

(** No variant's [simulate] names a coefficient ['B_1_A']. *)
Lemma simulate_keys_without_B_1_A (v : EstimatorCubic.variant) :
  "B_1_A" ∉ EstimatorCubic.simulate_keys v.
Proof. destruct v; apply (bool_decide_unpack _); vm_compute; exact I. Qed.

(** * Further properties of the two files *)

(** ** Parameter names, bounds and initial guesses *)

Section OptimizerInputs.

(** The fit parameters are the parameters of the acceleration function, each
    once, without the two state variables and, when the natural frequency is
    fixed, without ['omega0']. *)
Theorem parameter_names_spec (self : RollDecay.obj) :
  NoDup (RollDecay.parameter_names self)
  ∧ ∀ k : string,
      k ∈ RollDecay.parameter_names self
      ↔ k ∈ signature (RollDecay.calculate_acceleration self)
        ∧ k ≠ RollDecay.phi_key self
        ∧ k ≠ RollDecay.phi1d_key self
        ∧ (RollDecay.omega_regression self = false → k ≠ "omega0").
Proof.
  split.
  - unfold RollDecay.parameter_names. apply NoDup_elements.
  - intros k. rewrite <- (elem_of_list_to_set (C:=gset string)).
    rewrite parameter_names_set.
    destruct (RollDecay.omega_regression self); set_solver.
Qed.

Lemma mapM_length {A B} (f : A → res B) (l : list A) (bs : list B) :
  mapM f l = ret bs → length bs = length l.
Proof.
  revert bs. induction l as [|a l IH]; intros bs; simpl.
  - intros [= <-]. reflexivity.
  - destruct (f a) as [e|b]; [discriminate|]. simpl.
    destruct (mapM f l) as [e|bs']; [discriminate|]. simpl.
    intros [= <-]. simpl. rewrite (IH bs' eq_refl). reflexivity.
Qed.

Lemma mapM_raise {A B} (f : A → res B) (l : list A) (e : exn) :
  mapM f l = raise e → ∃ a, a ∈ l ∧ f a = raise e.
Proof.
  induction l as [|a l IH]; simpl; [discriminate|].
  destruct (f a) as [e'|b] eqn:Hfa.
  - intros [= <-]. exists a. split; [left|exact Hfa].
  - simpl. destruct (mapM f l) as [e'|bs]; [|discriminate].
    intros [= <-]. destruct (IH eq_refl) as (a' & Hin & Ha').
    exists a'. split; [right; exact Hin|exact Ha'].
Qed.

Lemma mapM_raise_intro {A B} (f : A → res B) (l : list A) (a : A) (e : exn) :
  a ∈ l → f a = raise e →
  (∀ a' e', a' ∈ l → f a' = raise e' → e' = e) →
  mapM f l = raise e.
Proof.
  induction l as [|a0 l IH]; intros Hin Hfa Hall; [inversion Hin|]. simpl.
  destruct (f a0) as [e0|b] eqn:Hf0.
  - rewrite (Hall a0 e0 (list_elem_of_here _ _) Hf0). reflexivity.
  - simpl. rewrite IH.
    + reflexivity.
    + apply elem_of_cons in Hin as [->|Hin]; [|exact Hin].
      rewrite Hfa in Hf0. discriminate.
    + exact Hfa.
    + intros a' e' Hin' Hf'. apply (Hall a' e'); [right; exact Hin'|exact Hf'].
Qed.

Lemma bounds_of_key_outcome (self : RollDecay.obj) (key : string) :
  (∃ lo hi, RollDecay.bounds_of_key self key = ret (lo, hi))
  ∨ (RollDecay.bounds_of_key self key = raise AssertionError
     ∧ ∃ entry, RollDecay.boundaries self !! key = Some entry ∧ length entry ≠ 2).
Proof.
  destruct (RollDecay.boundaries self !! key) as [entry|] eqn:Hentry.
  - destruct (decide (length entry = 2)) as [Hlen|Hlen].
    + left. destruct entry as [|lo [|hi [|? ?]]]; try discriminate.
      exists lo, hi. apply bounds_of_key_given. exact Hentry.
    + right. split; [|eauto].
      apply (bounds_of_key_malformed _ _ entry); assumption.
  - left. eexists _, _. apply bounds_of_key_default. exact Hentry.
Qed.

(** What the optimizer is given has one shape: the lower bounds, the upper
    bounds and the initial guess each have one component per fit parameter. *)
Theorem optimizer_inputs_have_one_shape (self : RollDecay.obj)
    (minimums maximums : list float) :
  RollDecay.bounds self = ret (minimums, maximums) →
  length minimums = length (RollDecay.parameter_names self)
  ∧ length maximums = length (RollDecay.parameter_names self)
  ∧ length (RollDecay.initial_guess self)
    = length (RollDecay.parameter_names self).
Proof.
  unfold RollDecay.bounds.
  destruct (mapM _ _) as [e|bs] eqn:Hbs; [discriminate|]. simpl.
  intros [= <- <-]. apply mapM_length in Hbs.
  rewrite !length_fmap. unfold RollDecay.initial_guess. rewrite length_map.
  auto.
Qed.

(** [bounds] fails exactly when a fit parameter has an entry that is no pair,
    and then on its assertion; an entry under any other name is not looked
    at. *)
Theorem bounds_fails_on_malformed_entry_only (self : RollDecay.obj) :
  ((∃ key entry, key ∈ RollDecay.parameter_names self
                 ∧ RollDecay.boundaries self !! key = Some entry
                 ∧ length entry ≠ 2)
   ↔ RollDecay.bounds self = raise AssertionError)
  ∧ ∀ e, RollDecay.bounds self = raise e → e = AssertionError.
Proof.
  assert (Hraise : ∀ e, RollDecay.bounds self = raise e →
            e = AssertionError
            ∧ ∃ key entry, key ∈ RollDecay.parameter_names self
                           ∧ RollDecay.boundaries self !! key = Some entry
                           ∧ length entry ≠ 2).
  { intros e. unfold RollDecay.bounds.
    destruct (mapM _ _) as [e'|bs] eqn:Hbs; [|discriminate].
    intros [= <-]. apply mapM_raise in Hbs as (key & Hin & Hkey).
    destruct (bounds_of_key_outcome self key)
      as [(lo & hi & Hok)|(Hbad & entry & Hentry & Hlen)].
    - rewrite Hok in Hkey. discriminate.
    - rewrite Hbad in Hkey. injection Hkey as <-. split; [reflexivity|].
      exists key, entry. auto. }
  split; [split|].
  - intros (key & entry & Hin & Hentry & Hlen). unfold RollDecay.bounds.
    rewrite (mapM_raise_intro _ _ key AssertionError Hin); [reflexivity| |].
    + apply (bounds_of_key_malformed _ _ entry); assumption.
    + intros key' e' _ Hkey'.
      destruct (bounds_of_key_outcome self key') as [(lo & hi & Hok)|[Hbad _]].
      * rewrite Hok in Hkey'. discriminate.
      * rewrite Hbad in Hkey'. injection Hkey' as <-. reflexivity.
  - intros Hb. apply (Hraise _ Hb).
  - intros e Hb. apply (Hraise _ Hb).
Qed.

End OptimizerInputs.

Lemma optimizer_inputs_have_one_shape_witness :
  length (replicate 6 neg_infinity) = length (RollDecay.parameter_names Examples.cubic_model)
  ∧ length (replicate 6 infinity) = length (RollDecay.parameter_names Examples.cubic_model)
  ∧ length (RollDecay.initial_guess Examples.cubic_model)
    = length (RollDecay.parameter_names Examples.cubic_model).
Proof.
  apply (optimizer_inputs_have_one_shape Examples.cubic_model).
  vm_compute. reflexivity.
Defined.

Section OtherNames.

Lemma mapM_ext {A B} (f g : A → res B) (l : list A) :
  (∀ a, a ∈ l → f a = g a) → mapM f l = mapM g l.
Proof.
  induction l as [|a l IH]; intros Hfg; simpl; [reflexivity|].
  rewrite (Hfg a (list_elem_of_here _ _)).
  rewrite IH; [reflexivity|]. intros a' Hin. apply Hfg. right. exact Hin.
Qed.

(** A bound or an initial guess passed to the constructor under a name that
    is no fit parameter changes neither [bounds] nor [initial_guess]. *)
Theorem entries_under_other_names_are_ignored (cls_acceleration : PyFunction)
    (maxfev : Z) (bounds : gmap string (list float)) (ftol : float)
    (p0 : gmap string float) (fit_method : string) (omega_regression : bool)
    (key : string) (entry : list float) (guess : float) (a b : RollDecay.obj) :
  RollDecay.__init__ cls_acceleration maxfev bounds ftol p0 fit_method
    omega_regression = ret a →
  RollDecay.__init__ cls_acceleration maxfev (<[key := entry]> bounds) ftol
    (<[key := guess]> p0) fit_method omega_regression = ret b →
  key ∉ RollDecay.parameter_names a →
  RollDecay.bounds b = RollDecay.bounds a
  ∧ RollDecay.initial_guess b = RollDecay.initial_guess a.
Proof.
  intros Ha Hb Hkey.
  apply __init___fresh in Ha
    as (_ & _ & _ & _ & Hphi_a & Hphi1d_a & Hbounds_a & Hp0_a & Hom_a & Hacc_a & _).
  apply __init___fresh in Hb
    as (_ & _ & _ & _ & Hphi_b & Hphi1d_b & Hbounds_b & Hp0_b & Hom_b & Hacc_b & _).
  assert (Hnames : RollDecay.parameter_names b = RollDecay.parameter_names a).
  { unfold RollDecay.parameter_names.
    rewrite Hphi_a, Hphi_b, Hphi1d_a, Hphi1d_b, Hom_a, Hom_b, Hacc_a, Hacc_b.
    reflexivity. }
  split.
  - unfold RollDecay.bounds. rewrite Hnames.
    rewrite (mapM_ext (RollDecay.bounds_of_key b) (RollDecay.bounds_of_key a));
      [reflexivity|].
    intros k Hk. unfold RollDecay.bounds_of_key, dict_get.
    rewrite Hbounds_a, Hbounds_b, lookup_insert_ne; [reflexivity|].
    intros ->. contradiction.
  - unfold RollDecay.initial_guess. rewrite Hnames.
    apply map_ext_in. intros k Hk%list_elem_of_In. unfold dict_get.
    rewrite Hp0_a, Hp0_b, lookup_insert_ne; [reflexivity|].
    intros ->. contradiction.
Qed.

End OtherNames.

Lemma entries_under_other_names_are_ignored_witness :
  RollDecay.bounds
    (Examples.made
       (RollDecay.__init__ Examples.cubic_acceleration 100
          (<["B_1_A" := [0%float; infinity]]> ∅) EstimatorCubic.default_ftol
          (<["B_1_A" := 0.25%float]> ∅) "integration" true))
  = RollDecay.bounds
      (Examples.made
         (RollDecay.__init__ Examples.cubic_acceleration 100 ∅
            EstimatorCubic.default_ftol ∅ "integration" true))
  ∧ RollDecay.initial_guess
      (Examples.made
         (RollDecay.__init__ Examples.cubic_acceleration 100
            (<["B_1_A" := [0%float; infinity]]> ∅) EstimatorCubic.default_ftol
            (<["B_1_A" := 0.25%float]> ∅) "integration" true))
    = RollDecay.initial_guess
        (Examples.made
           (RollDecay.__init__ Examples.cubic_acceleration 100 ∅
              EstimatorCubic.default_ftol ∅ "integration" true)).
Proof.
  apply (entries_under_other_names_are_ignored Examples.cubic_acceleration 100 ∅
           EstimatorCubic.default_ftol ∅ "integration" true "B_1_A"
           [0%float; infinity] 0.25%float).
  - reflexivity.
  - reflexivity.
  - apply (bool_decide_unpack _). vm_compute. exact I.
Defined.

(** ** Which parameter sets the acceleration function accepts *)

Section Binding.

Lemma bind_state_arguments (f : PyFunction) (a b : float)
    (parameters : gmap string float) :
  "phi" ∈ signature f → "phi1d" ∈ signature f →
  (bind_arguments f [("phi1d", b); ("phi", a)] parameters
   = ret (<["phi" := a]> (<["phi1d" := b]> parameters))
   ∧ dom parameters
     = (list_to_set (signature f) : gset string) ∖ {[ "phi"; "phi1d" ]})
  ∨ (∃ msg, bind_arguments f [("phi1d", b); ("phi", a)] parameters
            = raise (TypeError msg))
    ∧ dom parameters
      ≠ (list_to_set (signature f) : gset string) ∖ {[ "phi"; "phi1d" ]}.
Proof.
  intros Hphi Hphi1d. unfold bind_arguments.
  destruct (decide (Exists _ _)) as [Hdup|Hdup].
  { right. split; [eauto|]. intros Hdom.
    apply Exists_cons in Hdup as [Hd|Hdup].
    - apply elem_of_dom in Hd. simpl in Hd. set_solver.
    - apply Exists_cons in Hdup as [Hd|Hdup]; [|inversion Hdup].
      apply elem_of_dom in Hd. simpl in Hd. set_solver. }
  assert (Hno1 : "phi1d" ∉ dom parameters).
  { intros Hin. apply Hdup. apply Exists_cons_hd. apply elem_of_dom. exact Hin. }
  assert (Hno : "phi" ∉ dom parameters).
  { intros Hin. apply Hdup. apply Exists_cons_tl, Exists_cons_hd.
    apply elem_of_dom. exact Hin. }
  cbn [foldl fst snd].
  destruct (decide (Exists _ _)) as [Hextra|Hextra].
  { right. split; [eauto|]. intros Hdom.
    apply Exists_exists in Hextra as (k & Hk & Hout).
    apply elem_of_elements in Hk. rewrite !dom_insert_L in Hk.
    apply Hout. apply (elem_of_list_to_set (C:=gset string)). set_solver. }
  destruct (decide (Exists _ _)) as [Hmissing|Hmissing].
  { right. split; [eauto|]. intros Hdom.
    apply Exists_exists in Hmissing as (k & Hk & Hnone).
    apply not_elem_of_dom in Hnone. rewrite !dom_insert_L in Hnone.
    apply (elem_of_list_to_set (C:=gset string)) in Hk.
    destruct (decide (k = "phi")) as [->|?]; [set_solver|].
    destruct (decide (k = "phi1d")) as [->|?]; set_solver. }
  left. split; [reflexivity|].
  apply set_eq. intros k. split.
  - intros Hk. apply elem_of_difference. split.
    + apply elem_of_list_to_set.
      destruct (decide (k ∈ signature f)) as [?|Hout]; [assumption|].
      exfalso. apply Hextra. apply Exists_exists. exists k. split; [|exact Hout].
      apply elem_of_elements. rewrite !dom_insert_L. set_solver.
    + set_solver.
  - intros [Hk Hstate]%elem_of_difference.
    apply elem_of_list_to_set in Hk.
    destruct (decide (k ∈ dom parameters)) as [?|Hout]; [assumption|].
    exfalso. apply Hmissing. apply Exists_exists. exists k. split; [exact Hk|].
    apply not_elem_of_dom. rewrite !dom_insert_L. set_solver.
Qed.

(** The derivative can be evaluated exactly for the parameter sets whose
    names are the parameters of the acceleration function other than the two
    state variables: one name more, one name less, or a state variable among
    them, and every evaluation raises [TypeError]. *)
Theorem derivative_defined_iff_names_match (self : RollDecay.obj)
    (τ phi phi1d : float) (parameters : gmap string float) :
  "phi" ∈ signature (RollDecay.calculate_acceleration self) →
  "phi1d" ∈ signature (RollDecay.calculate_acceleration self) →
  (dom parameters
   = (list_to_set (signature (RollDecay.calculate_acceleration self)) : gset string)
       ∖ {[ "phi"; "phi1d" ]}
   → RollDecay.roll_decay_time_step self τ [phi; phi1d] parameters
     = ret [phi1d;
            body (RollDecay.calculate_acceleration self)
              (<["phi" := phi]> (<["phi1d" := phi1d]> parameters))])
  ∧ (dom parameters
     ≠ (list_to_set (signature (RollDecay.calculate_acceleration self)) : gset string)
         ∖ {[ "phi"; "phi1d" ]}
     → ∃ msg, RollDecay.roll_decay_time_step self τ [phi; phi1d] parameters
              = raise (TypeError msg)).
Proof.
  intros Hphi Hphi1d.
  destruct (bind_state_arguments (RollDecay.calculate_acceleration self)
              phi phi1d parameters Hphi Hphi1d)
    as [[Hok Hdom]|[[msg Hbad] Hdom]];
    (split; intros Hd; [|]); try contradiction;
    unfold RollDecay.roll_decay_time_step, call; simpl.
  - rewrite Hok. reflexivity.
  - exists msg. rewrite Hbad. reflexivity.
Qed.

End Binding.

Lemma derivative_defined_iff_names_match_witness :
  RollDecay.roll_decay_time_step Examples.cubic_model 0 [0.5; 0.25]%float
    (dict_of_zip (EstimatorCubic.simulate_keys EstimatorCubic.Cubic)
       (replicate 6 0.5%float))
  = ret [0.25%float;
         body Examples.cubic_acceleration
           (<["phi" := 0.5%float]>
              (<["phi1d" := 0.25%float]>
                 (dict_of_zip (EstimatorCubic.simulate_keys EstimatorCubic.Cubic)
                    (replicate 6 0.5%float))))]
  ∧ ∃ msg,
      RollDecay.roll_decay_time_step Examples.cubic_model 0 [0.5; 0.25]%float
        (dict_of_zip (EstimatorCubic.simulate_keys EstimatorCubic.QuadraticB)
           (replicate 3 0.5%float))
      = raise (TypeError msg).
Proof.
  assert (Hphi : "phi" ∈ signature (RollDecay.calculate_acceleration Examples.cubic_model))
    by (apply (bool_decide_unpack _); vm_compute; exact I).
  assert (Hphi1d : "phi1d" ∈ signature (RollDecay.calculate_acceleration Examples.cubic_model))
    by (apply (bool_decide_unpack _); vm_compute; exact I).
  split.
  - apply (proj1 (derivative_defined_iff_names_match Examples.cubic_model
                    0 0.5 0.25 _ Hphi Hphi1d)).
    apply (bool_decide_unpack _). vm_compute. exact I.
  - apply (proj2 (derivative_defined_iff_names_match Examples.cubic_model
                    0 0.5 0.25 _ Hphi Hphi1d)).
    apply (bool_decide_unpack _). vm_compute. exact I.
Defined.

(** ** What a fit leaves behind *)

Section FitOutcome.
Context {Σ : Collaborators}.

(** A fit that returns has run the optimizer, named its solution, and set
    the four attributes a fit assigns. *)
Lemma fit_returns_inv (self self' : RollDecay.obj) (X : DataFrame.t) :
  RollDecay.fit self X = (self', ret tt) →
  ∃ (r : OptimizeResult.t) (p : gmap string float),
    RollDecay.optimize (RollDecay.set_X self X) X = ret r
    ∧ (RollDecay.assert_success self = true → OptimizeResult.success r = true)
    ∧ RollDecay.named_parameters (RollDecay.set_X self X) (OptimizeResult.x r)
      = ret p
    ∧ self' = RollDecay.set_is_fitted_
                (RollDecay.set_parameters
                   (RollDecay.set_result (RollDecay.set_X self X) r) p) true.
Proof.
  unfold RollDecay.fit.
  destruct (RollDecay.optimize (RollDecay.set_X self X) X) as [e|r] eqn:Hopt;
    [discriminate|]. simpl.
  assert (Hsuccess : RollDecay.assert_success self
                     && negb (OptimizeResult.success r) = false
                     → RollDecay.assert_success self = true
                     → OptimizeResult.success r = true).
  { destruct (RollDecay.assert_success self), (OptimizeResult.success r);
      simpl; congruence. }
  destruct (RollDecay.assert_success self && negb (OptimizeResult.success r));
    [discriminate|]. specialize (Hsuccess eq_refl).
  destruct (RollDecay.omega_regression self) eqn:Hom; simpl.
  - intros [= <-]. eexists r, _. split; [reflexivity|]. split; [exact Hsuccess|].
    unfold RollDecay.named_parameters. simpl. rewrite Hom. simpl.
    split; reflexivity.
  - destruct (RollDecay.omega0 _) as [e|w] eqn:Hw; [discriminate|].
    assert (Hw' : RollDecay.omega0 (RollDecay.set_X self X) = ret w).
    { etransitivity; [|exact Hw]. apply omega0_same_X. reflexivity. }
    intros [= <-]. eexists r, _. split; [reflexivity|].
    split; [exact Hsuccess|].
    unfold RollDecay.named_parameters. simpl. rewrite Hom. simpl.
    rewrite Hw'. simpl. split; reflexivity.
Qed.

Lemma named_parameters_dom (self : RollDecay.obj) (x : list float)
    (p : gmap string float) :
  length x = length (RollDecay.parameter_names self) →
  RollDecay.named_parameters self x = ret p →
  dom p = declared_names self.
Proof.
  intros Hlen. unfold RollDecay.named_parameters, declared_names.
  pose proof (parameter_names_set self) as Hnames.
  destruct (RollDecay.omega_regression self) eqn:Hom; simpl.
  - intros [= <-]. rewrite dom_dict_of_zip by lia. rewrite Hnames. set_solver.
  - destruct (RollDecay.omega0 self) as [e|w]; [discriminate|]. simpl.
    intros [= <-]. rewrite dom_insert_L, dom_dict_of_zip by lia.
    rewrite Hnames. apply set_eq. intros k.
    destruct (decide (k = "omega0")); set_solver.
Qed.

(** A fit that returns has stored the frame, the optimizer's result, a
    parameter set and the flag; when success is asserted, the stored result
    is a converged one. *)
Theorem fit_postconditions (self self' : RollDecay.obj) (X : DataFrame.t) :
  RollDecay.fit self X = (self', ret tt) →
  RollDecay.X self' = Some X
  ∧ RollDecay.is_fitted_ self' = Some true
  ∧ is_Some (RollDecay.parameters self')
  ∧ ∃ r, RollDecay.result self' = Some r
         ∧ RollDecay.optimize (RollDecay.set_X self X) X = ret r
         ∧ (RollDecay.assert_success self = true
            → OptimizeResult.success r = true).
Proof.
  intros (r & p & Hopt & Hsuccess & _ & ->)%fit_returns_inv. simpl.
  repeat split; eauto.
Qed.

(** The parameter set a fit stores is one the simulator accepts: with it,
    every evaluation of the derivative returns. The natural frequency must
    be fitted, or be a parameter of the acceleration function. *)
Theorem fitted_parameters_can_be_simulated (self self' : RollDecay.obj)
    (X : DataFrame.t) :
  solution_as_long_as_x0 →
  RollDecay.phi_key self = "phi" →
  RollDecay.phi1d_key self = "phi1d" →
  "phi" ∈ signature (RollDecay.calculate_acceleration self) →
  "phi1d" ∈ signature (RollDecay.calculate_acceleration self) →
  (RollDecay.omega_regression self = true
   ∨ "omega0" ∈ signature (RollDecay.calculate_acceleration self)) →
  RollDecay.fit self X = (self', ret tt) →
  ∃ p : gmap string float,
    RollDecay.parameters self' = Some p
    ∧ ∀ τ phi phi1d : float,
        RollDecay.roll_decay_time_step self' τ [phi; phi1d] p
        = ret [phi1d;
               body (RollDecay.calculate_acceleration self)
                 (<["phi" := phi]> (<["phi1d" := phi1d]> p))].
Proof.
  intros Hls Hkey Hkey1 Hphi Hphi1d Homega
    (r & p & Hopt & _ & Hp & ->)%fit_returns_inv.
  exists p. split; [reflexivity|]. intros τ phi phi1d.
  pose proof (optimize_solution_length _ _ _ Hls Hopt) as Hlen.
  pose proof (named_parameters_dom _ _ _ Hlen Hp) as Hdom.
  assert (Hmatch : dom p
            = (list_to_set (signature (RollDecay.calculate_acceleration self))
                 : gset string) ∖ {[ "phi"; "phi1d" ]}).
  { rewrite Hdom. unfold declared_names. simpl. rewrite Hkey, Hkey1.
    destruct Homega as [->|Hin].
    - set_solver.
    - destruct (RollDecay.omega_regression self); [set_solver|].
      apply (elem_of_list_to_set (C:=gset string)) in Hin.
      apply set_eq. intros k.
      destruct (decide (k = "omega0")) as [->|?]; set_solver. }
  destruct (bind_state_arguments (RollDecay.calculate_acceleration self)
              phi phi1d p Hphi Hphi1d) as [[Hok _]|[_ Hne]];
    [|contradiction].
  unfold RollDecay.roll_decay_time_step, call. simpl. rewrite Hok. reflexivity.
Qed.

End FitOutcome.

Lemma fit_postconditions_witness :
  RollDecay.X
    (RollDecay.fit (Σ:=Examples.collaborators true)
       (Examples.linear_model "integration" true) Examples.X4).1
  = Some Examples.X4
  ∧ RollDecay.is_fitted_
      (RollDecay.fit (Σ:=Examples.collaborators true)
         (Examples.linear_model "integration" true) Examples.X4).1
    = Some true
  ∧ is_Some
      (RollDecay.parameters
         (RollDecay.fit (Σ:=Examples.collaborators true)
            (Examples.linear_model "integration" true) Examples.X4).1)
  ∧ ∃ r,
      RollDecay.result
        (RollDecay.fit (Σ:=Examples.collaborators true)
           (Examples.linear_model "integration" true) Examples.X4).1
      = Some r
      ∧ RollDecay.optimize (Σ:=Examples.collaborators true)
          (RollDecay.set_X (Examples.linear_model "integration" true) Examples.X4)
          Examples.X4 = ret r
      ∧ (RollDecay.assert_success (Examples.linear_model "integration" true) = true
         → OptimizeResult.success r = true).
Proof.
  apply (fit_postconditions (Σ:=Examples.collaborators true)).
  vm_compute. reflexivity.
Defined.

Lemma fitted_parameters_can_be_simulated_witness :
  ∃ p : gmap string float,
    RollDecay.parameters Examples.fitted_cubic_model = Some p
    ∧ ∀ τ phi phi1d : float,
        RollDecay.roll_decay_time_step Examples.fitted_cubic_model τ [phi; phi1d] p
        = ret [phi1d;
               body (RollDecay.calculate_acceleration Examples.cubic_model)
                 (<["phi" := phi]> (<["phi1d" := phi1d]> p))].
Proof.
  apply (fitted_parameters_can_be_simulated (Σ:=Examples.collaborators true)
           Examples.cubic_model Examples.fitted_cubic_model Examples.X4
           (one_evaluation_solution_as_long_as_x0 true)).
  - reflexivity.
  - reflexivity.
  - apply (bool_decide_unpack _). vm_compute. exact I.
  - apply (bool_decide_unpack _). vm_compute. exact I.
  - left. reflexivity.
  - vm_compute. reflexivity.
Defined.

Section FitState.
Context {Σ : Collaborators}.

(** In the derivation mode, the mode of a default estimator, a frame without
    the acceleration column makes [fit] raise [KeyError] for ['phi2d']; the
    frame is stored, nothing else is. *)
Theorem derivation_fit_needs_acceleration_column (cls_acceleration : PyFunction)
    (maxfev : Z) (bounds : gmap string (list float)) (ftol : float)
    (p0 : gmap string float) (omega_regression : bool) (self : RollDecay.obj)
    (X : DataFrame.t) :
  RollDecay.__init__ cls_acceleration maxfev bounds ftol p0 "derivation"
    omega_regression = ret self →
  DataFrame.columns X !! "phi2d" = None →
  RollDecay.fit self X = (RollDecay.set_X self X, raise (KeyError "phi2d"))
  ∧ RollDecay.is_fitted_ (RollDecay.fit self X).1 = Some false
  ∧ RollDecay.parameters (RollDecay.fit self X).1 = None
  ∧ RollDecay.result (RollDecay.fit self X).1 = None.
Proof.
  unfold RollDecay.__init__. simpl. intros [= <-] Hcol.
  assert (Hfit : ∀ s, RollDecay.y_key s = "phi2d" →
            RollDecay.fit s X = (RollDecay.set_X s X, raise (KeyError "phi2d"))).
  { intros s Hy. unfold RollDecay.fit, RollDecay.optimize, DataFrame.getitem.
    simpl. rewrite Hy, Hcol. reflexivity. }
  rewrite Hfit by reflexivity. repeat split; reflexivity.
Qed.

(** A fit that raises leaves the earlier parameter set and flag as they
    were, so [predict] answers as before the attempt; the stored frame is
    the new one. *)
Theorem failed_fit_keeps_earlier_parameters (self : RollDecay.obj)
    (X X' : DataFrame.t) (e : exn) :
  residual_taken_at_x0 →
  (RollDecay.fit self X).2 = raise e →
  RollDecay.parameters (RollDecay.fit self X).1 = RollDecay.parameters self
  ∧ RollDecay.is_fitted_ (RollDecay.fit self X).1 = RollDecay.is_fitted_ self
  ∧ RollDecay.X (RollDecay.fit self X).1 = Some X
  ∧ RollDecay.predict (RollDecay.fit self X).1 X' = RollDecay.predict self X'.
Proof.
  intros Hls. unfold RollDecay.fit.
  destruct (RollDecay.optimize (RollDecay.set_X self X) X) as [e'|r] eqn:Hopt.
  - simpl. intros _. repeat split; reflexivity.
  - simpl.
    destruct (RollDecay.assert_success self && negb (OptimizeResult.success r)).
    + simpl. intros _. repeat split; reflexivity.
    + destruct (RollDecay.omega_regression self) eqn:Hom; simpl.
      * discriminate.
      * destruct (optimize_needs_omega0 (RollDecay.set_X self X) X r Hls Hom Hopt)
          as [w Hw].
        assert (Hw' : ∀ s, RollDecay.X s = Some X → RollDecay.omega0 s = ret w).
        { intros s Hs. etransitivity; [|exact Hw]. apply omega0_same_X.
          exact Hs. }
        rewrite Hw' by reflexivity. discriminate.
Qed.

(** A fit does not read what an earlier fit has left: two estimators of the
    same configuration get the same outcome from [fit] on a frame, and when
    it returns they are the same object afterwards. *)
Theorem fit_discards_earlier_fit (a b : RollDecay.obj) (X : DataFrame.t) :
  same_configuration a b →
  (RollDecay.fit a X).2 = (RollDecay.fit b X).2
  ∧ ((RollDecay.fit a X).2 = ret tt →
     (RollDecay.fit a X).1 = (RollDecay.fit b X).1).
Proof.
  destruct a as [acc fa k1 k2 k3 ky bd p0 mf ft fm om asr Xa ra pa].
  destruct b as [acc' fb k1' k2' k3' ky' bd' p0' mf' ft' fm' om' asr' Xb rb pb].
  unfold same_configuration. simpl.
  intros (<- & <- & <- & <- & <- & <- & <- & <- & <- & <- & <- & <-).
  unfold RollDecay.fit.
  assert (Hopt : RollDecay.optimize
                   (RollDecay.set_X
                      (RollDecay.mk acc fa k1 k2 k3 ky bd p0 mf ft fm om asr Xa ra pa)
                      X) X
                 = RollDecay.optimize
                     (RollDecay.set_X
                        (RollDecay.mk acc fb k1 k2 k3 ky bd p0 mf ft fm om asr Xb rb pb)
                        X) X) by reflexivity.
  rewrite Hopt.
  destruct (RollDecay.optimize _ X) as [e|r]; simpl; [split; [reflexivity|discriminate]|].
  destruct (asr && negb (OptimizeResult.success r)); simpl;
    [split; [reflexivity|discriminate]|].
  destruct om; simpl; [split; reflexivity|].
  unfold RollDecay.omega0. simpl.
  destruct (_ <~ DataFrame.getitem X "phi" ;; _) as [e|w]; simpl;
    [split; [reflexivity|discriminate]|].
  split; reflexivity.
Qed.

End FitState.

Lemma derivation_fit_needs_acceleration_column_witness :
  RollDecay.fit (Σ:=Examples.collaborators true)
    (Examples.linear_model "derivation" true) Examples.X4_phi_only
  = (RollDecay.set_X (Examples.linear_model "derivation" true) Examples.X4_phi_only,
     raise (KeyError "phi2d")).
Proof.
  apply (derivation_fit_needs_acceleration_column (Σ:=Examples.collaborators true)
           Examples.linear_acceleration RollDecay.default_maxfev ∅
           RollDecay.default_ftol ∅ true).
  - reflexivity.
  - vm_compute. reflexivity.
Defined.

Lemma failed_fit_keeps_earlier_parameters_witness :
  RollDecay.parameters
    (RollDecay.fit (Σ:=Examples.collaborators false)
       Examples.fitted_cubic_model Examples.X4).1
  = RollDecay.parameters Examples.fitted_cubic_model
  ∧ RollDecay.is_fitted_
      (RollDecay.fit (Σ:=Examples.collaborators false)
         Examples.fitted_cubic_model Examples.X4).1
    = Some true
  ∧ RollDecay.predict (Σ:=Examples.collaborators false)
      (RollDecay.fit (Σ:=Examples.collaborators false)
         Examples.fitted_cubic_model Examples.X4).1 Examples.X4
    = RollDecay.predict (Σ:=Examples.collaborators false)
        Examples.fitted_cubic_model Examples.X4.
Proof.
  assert (Hraise : (RollDecay.fit (Σ:=Examples.collaborators false)
                      Examples.fitted_cubic_model Examples.X4).2
                   = raise AssertionError) by (vm_compute; reflexivity).
  destruct (failed_fit_keeps_earlier_parameters (Σ:=Examples.collaborators false)
              Examples.fitted_cubic_model Examples.X4 Examples.X4 AssertionError
              (one_evaluation_residual_taken_at_x0 false) Hraise)
    as (Hp & Hf & _ & Hpred).
  split; [exact Hp|]. split; [|exact Hpred].
  rewrite Hf. vm_compute. reflexivity.
Defined.

Lemma fit_discards_earlier_fit_witness :
  (RollDecay.fit (Σ:=Examples.collaborators true)
     Examples.fitted_cubic_model Examples.X4_phi_only).1
  = (RollDecay.fit (Σ:=Examples.collaborators true)
       Examples.cubic_model Examples.X4_phi_only).1.
Proof.
  assert (Hsame : same_configuration Examples.fitted_cubic_model Examples.cubic_model)
    by (repeat split; vm_compute; reflexivity).
  apply (proj2 (fit_discards_earlier_fit (Σ:=Examples.collaborators true)
                  Examples.fitted_cubic_model Examples.cubic_model
                  Examples.X4_phi_only Hsame)).
  vm_compute. reflexivity.
Defined.

(** ** Simulation and prediction *)

Section Simulation.
Context {Σ : Collaborators}.

(** A simulation that returns was asked for a grid that is not empty, and
    its frame holds the solver's two rows, each as long as the grid. *)
Lemma _simulate_returns_inv (self : RollDecay.obj) (t : list float)
    (phi0 phi1d0 : float) (parameters : gmap string float) (df : DataFrame.t) :
  RollDecay._simulate self t phi0 phi1d0 parameters = ret df →
  ∃ row0 row1 : list float,
    t ≠ []
    ∧ length row0 = length t
    ∧ length row1 = length t
    ∧ df = DataFrame.mk t
             (<[RollDecay.phi1d_key self := row1]>
                (<[RollDecay.phi_key self := row0]> ∅)).
Proof.
  destruct t as [|t0 t_rest]; [discriminate|].
  destruct (_simulate_initial_state self t0 t_rest phi0 phi1d0 parameters)
    as (tb & _ & ->).
  destruct (solve_ivp _ _ _ _) as [e|r]; [discriminate|]. simpl.
  destruct (OdeResult.success r); [|discriminate]. simpl.
  destruct (seq_getitem (OdeResult.y r) 0) as [e|row0]; [discriminate|]. simpl.
  unfold DataFrame.setitem_array, DataFrame.empty. simpl.
  destruct (decide (length row0 = S (length t_rest))) as [Hlen0|?];
    [|simpl; discriminate]. simpl.
  destruct (seq_getitem (OdeResult.y r) 1) as [e|row1]; [discriminate|]. simpl.
  destruct (decide (length row1 = S (length t_rest))) as [Hlen1|?];
    [|simpl; discriminate]. simpl.
  intros [= <-]. exists row0, row1. repeat split; try assumption. discriminate.
Qed.

(** Whatever the solver returns, a frame that comes out of [_simulate] is
    indexed by the caller's time grid, has the roll-angle and the roll-rate
    column and no other, and each column has one value per sample time. *)
Theorem _simulate_frame_shape (self : RollDecay.obj) (t : list float)
    (phi0 phi1d0 : float) (parameters : gmap string float) (df : DataFrame.t) :
  RollDecay._simulate self t phi0 phi1d0 parameters = ret df →
  DataFrame.index df = t
  ∧ t ≠ []
  ∧ dom (DataFrame.columns df)
    = {[ RollDecay.phi_key self; RollDecay.phi1d_key self ]}
  ∧ ∀ key column, DataFrame.columns df !! key = Some column →
      length column = length t.
Proof.
  intros Hsim.
  apply _simulate_returns_inv in Hsim as (row0 & row1 & Hne & Hlen0 & Hlen1 & ->).
  simpl.
  split; [reflexivity|]. split; [exact Hne|]. split.
  - rewrite !dom_insert_L, dom_empty_L. set_solver.
  - intros key column.
    rewrite lookup_insert. case_decide; [intros [= <-]; exact Hlen1|].
    rewrite lookup_insert. case_decide; [intros [= <-]; exact Hlen0|].
    rewrite lookup_empty. discriminate.
Qed.

(** The integration prediction never raises and always has one value per
    sample time, simulated or infinite: the residual vector the optimizer
    sees keeps its length from trial to trial. *)
Theorem integration_prediction_always_returns (self : RollDecay.obj)
    (t : list float) (phi0 phi1d0 : float) (parameters : gmap string float) :
  RollDecay.phi_key self = "phi" →
  RollDecay.y_key self = "phi" →
  ∃ s : Series.t,
    RollDecay.estimator_integration self t phi0 phi1d0 parameters = ret s
    ∧ Series.index s = t
    ∧ length (Series.values s) = length t.
Proof.
  intros Hphi Hy. unfold RollDecay.estimator_integration.
  destruct (RollDecay._simulate self t phi0 phi1d0 parameters) as [e|df] eqn:Hsim.
  - simpl. rewrite Hy. eexists. split; [reflexivity|]. simpl.
    split; [reflexivity|]. apply length_replicate.
  - apply _simulate_returns_inv in Hsim
      as (row0 & row1 & _ & Hlen0 & Hlen1 & ->).
    simpl. unfold DataFrame.getitem. simpl. rewrite Hy, Hphi.
    rewrite lookup_insert. case_decide.
    + eexists. split; [reflexivity|]. simpl. auto.
    + rewrite lookup_insert_eq. eexists. split; [reflexivity|]. simpl. auto.
Qed.

(** After a fit that has returned, the frame [predict] returns is the
    solver's answer to the problem that starts at the frame's first observed
    roll angle and first observed roll rate, posed with the stored
    parameters over the frame's index shifted to start at zero: [predict]
    returns exactly when the solver succeeds with two rows as long as the
    index, and these rows are the two columns. *)
Theorem predict_starts_from_observed_state (self self' : RollDecay.obj)
    (X X' : DataFrame.t) (t0 t_last phi0 phi1d0 : float)
    (t_rest phi_rest phi1d_rest : list float) :
  let t := t0 :: t_rest in
  RollDecay.fit self X = (self', ret tt) →
  DataFrame.index X' = t →
  last t = Some t_last →
  DataFrame.columns X' !! RollDecay.phi_key self = Some (phi0 :: phi_rest) →
  DataFrame.columns X' !! RollDecay.phi1d_key self = Some (phi1d0 :: phi1d_rest) →
  ∃ p : gmap string float,
    RollDecay.parameters self' = Some p
    ∧ ∀ df : DataFrame.t,
        RollDecay.predict self' X' = ret df
        ↔ ∃ (r : OdeResult.t) (row0 row1 : list float),
            solve_ivp
              (fun τ states => RollDecay.roll_decay_time_step self' τ states p)
              ((t0 - t0)%float, (t_last - t0)%float) [phi0; phi1d0]
              (map (fun ti => (ti - t0)%float) t) = ret r
            ∧ OdeResult.success r = true
            ∧ OdeResult.y r !! 0 = Some row0
            ∧ OdeResult.y r !! 1 = Some row1
            ∧ length row0 = length t
            ∧ length row1 = length t
            ∧ df = DataFrame.mk t
                     (<[RollDecay.phi1d_key self := row1]>
                        (<[RollDecay.phi_key self := row0]> ∅)).
Proof.
  intros t (r & p & _ & _ & _ & ->)%fit_returns_inv Hidx Hlast Hphi Hphi1d.
  exists p. split; [reflexivity|]. intros df.
  match goal with
  | |- RollDecay.predict ?s _ = _ ↔ _ =>
      assert (Hpredict : RollDecay.predict s X'
                         = RollDecay._simulate s t phi0 phi1d0 p);
      [|rewrite Hpredict;
        exact (_simulate_returns_iff s t0 t_last t_rest phi0 phi1d0 p df Hlast)]
  end.
  unfold RollDecay.predict, DataFrame.getitem_iloc0, DataFrame.getitem. simpl.
  rewrite Hphi. simpl. rewrite Hphi1d. simpl. rewrite Hidx. reflexivity.
Qed.

(** What [predict] needs of its frame, fitted or not: the roll-angle column,
    a first row, and the roll-rate column, asked for in this order. An
    object without the flag attribute is reported as not fitted. *)
Theorem predict_input_errors (self : RollDecay.obj) (X : DataFrame.t) :
  (RollDecay.is_fitted_ self = None →
   RollDecay.predict self X = raise (NotFittedError "is_fitted_"))
  ∧ (is_Some (RollDecay.is_fitted_ self) →
     DataFrame.columns X !! RollDecay.phi_key self = None →
     RollDecay.predict self X = raise (KeyError (RollDecay.phi_key self)))
  ∧ (is_Some (RollDecay.is_fitted_ self) →
     DataFrame.columns X !! RollDecay.phi_key self = Some [] →
     RollDecay.predict self X
     = raise (IndexError "single positional indexer is out-of-bounds"))
  ∧ (is_Some (RollDecay.is_fitted_ self) →
     ∀ phi0 phi_rest,
       DataFrame.columns X !! RollDecay.phi_key self = Some (phi0 :: phi_rest) →
       DataFrame.columns X !! RollDecay.phi1d_key self = None →
       RollDecay.predict self X = raise (KeyError (RollDecay.phi1d_key self))).
Proof.
  unfold RollDecay.predict, RollDecay.check_is_fitted, RollDecay.hasattr,
    DataFrame.getitem_iloc0, DataFrame.getitem. simpl.
  repeat split.
  - intros ->. reflexivity.
  - intros [b ->] ->. reflexivity.
  - intros [b ->] ->. reflexivity.
  - intros [b ->] phi0 phi_rest -> ->. reflexivity.
Qed.

(** [true_and_prediction] returns two series over the same index, and the
    predicted one has a value for each of its index entries; without a frame
    the stored one is used. *)
Theorem true_and_prediction_aligned (self : RollDecay.obj)
    (X : option DataFrame.t) (y_true y_pred : Series.t) :
  RollDecay.true_and_prediction self X = ret (y_true, y_pred) →
  Series.index y_true = Series.index y_pred
  ∧ length (Series.values y_pred) = length (Series.index y_pred)
  ∧ ∃ X', (X = Some X' ∨ X = None ∧ RollDecay.X self = Some X')
          ∧ Series.index y_true = DataFrame.index X'.
Proof.
  unfold RollDecay.true_and_prediction.
  assert (Hframe : ∀ X' : DataFrame.t,
            (y_true <~ DataFrame.getitem X' (RollDecay.phi_key self) ;;
             df_sim <~ RollDecay.predict self X' ;;
             y_pred <~ DataFrame.getitem df_sim (RollDecay.phi_key self) ;;
             ret (y_true, y_pred)) = ret (y_true, y_pred) →
            Series.index y_true = Series.index y_pred
            ∧ length (Series.values y_pred) = length (Series.index y_pred)
            ∧ Series.index y_true = DataFrame.index X').
  { intros X'. unfold DataFrame.getitem at 1.
    destruct (DataFrame.columns X' !! RollDecay.phi_key self) as [col|];
      [|discriminate]. simpl.
    destruct (RollDecay.predict self X') as [e|df] eqn:Hpredict; [discriminate|].
    simpl. unfold RollDecay.predict in Hpredict.
    destruct (RollDecay.check_is_fitted self "is_fitted_"); [discriminate|].
    simpl in Hpredict.
    destruct (DataFrame.getitem_iloc0 X' (RollDecay.phi_key self));
      [discriminate|]. simpl in Hpredict.
    destruct (DataFrame.getitem_iloc0 X' (RollDecay.phi1d_key self));
      [discriminate|]. simpl in Hpredict.
    destruct (RollDecay.getattr (RollDecay.parameters self) "parameters");
      [discriminate|]. simpl in Hpredict.
    apply _simulate_returns_inv in Hpredict
      as (row0 & row1 & _ & Hlen0 & Hlen1 & ->).
    unfold DataFrame.getitem. simpl.
    destruct (_ !! RollDecay.phi_key self) as [col'|] eqn:Hcol';
      [|discriminate]. simpl.
    intros [= <- <-]. simpl. repeat split.
    rewrite lookup_insert in Hcol'. case_decide.
    - injection Hcol' as <-. exact Hlen1.
    - rewrite lookup_insert_eq in Hcol'. injection Hcol' as <-. exact Hlen0. }
  destruct X as [X'|].
  - simpl. intros H. destruct (Hframe X' H) as (H1 & H2 & H3).
    split; [exact H1|]. split; [exact H2|]. exists X'. auto.
  - destruct (RollDecay.X self) as [X'|]; [|discriminate]. simpl.
    intros H. destruct (Hframe X' H) as (H1 & H2 & H3).
    split; [exact H1|]. split; [exact H2|]. exists X'. auto.
Qed.

End Simulation.

Lemma _simulate_frame_shape_witness :
  ∃ df : DataFrame.t,
    RollDecay._simulate (Σ:=Examples.collaborators true) Examples.fitted_cubic_model
      [0; 1; 2; 3]%float 0.5 0.25
      (dict_of_zip (EstimatorCubic.simulate_keys EstimatorCubic.Cubic)
         (replicate 6 0.5%float)) = ret df
    ∧ DataFrame.index df = [0; 1; 2; 3]%float
    ∧ dom (DataFrame.columns df) = {[ "phi"; "phi1d" ]}.
Proof.
  pose (df := returned (DataFrame.empty [])
                (RollDecay._simulate (Σ:=Examples.collaborators true)
                   Examples.fitted_cubic_model [0; 1; 2; 3]%float 0.5 0.25
                   (dict_of_zip (EstimatorCubic.simulate_keys EstimatorCubic.Cubic)
                      (replicate 6 0.5%float)))).
  assert (Hsim : RollDecay._simulate (Σ:=Examples.collaborators true)
                   Examples.fitted_cubic_model [0; 1; 2; 3]%float 0.5 0.25
                   (dict_of_zip (EstimatorCubic.simulate_keys EstimatorCubic.Cubic)
                      (replicate 6 0.5%float)) = ret df)
    by (vm_compute; reflexivity).
  exists df. split; [exact Hsim|].
  destruct (_simulate_frame_shape (Σ:=Examples.collaborators true) _ _ _ _ _ _ Hsim)
    as (Hidx & _ & Hdom & _).
  split; [exact Hidx|exact Hdom].
Defined.

Lemma integration_prediction_always_returns_witness :
  ∃ s : Series.t,
    RollDecay.estimator_integration (Σ:=Examples.failing_solver)
      Examples.cubic_model [0; 1; 2]%float 0.5 0 ∅ = ret s
    ∧ Series.index s = [0; 1; 2]%float
    ∧ length (Series.values s) = length [0; 1; 2]%float.
Proof.
  apply (integration_prediction_always_returns (Σ:=Examples.failing_solver)
           Examples.cubic_model); reflexivity.
Defined.

Lemma predict_starts_from_observed_state_witness :
  ∃ (p : gmap string float) (r : OdeResult.t) (row0 row1 : list float),
    RollDecay.parameters Examples.fitted_cubic_model = Some p
    ∧ Examples.euler_ivp
        (fun τ states =>
           RollDecay.roll_decay_time_step Examples.fitted_cubic_model τ states p)
        ((0 - 0)%float, (3 - 0)%float) [0.5; 0.25]%float
        (map (fun ti => (ti - 0)%float) [0; 1; 2; 3]%float) = ret r
    ∧ OdeResult.y r = [row0; row1]
    ∧ row0 !! 0 = Some 0.5%float
    ∧ row1 !! 0 = Some 0.25%float
    ∧ RollDecay.predict (Σ:=Examples.collaborators true)
        Examples.fitted_cubic_model Examples.X4
      = ret (DataFrame.mk [0; 1; 2; 3]%float
               (<["phi1d" := row1]> (<["phi" := row0]> ∅))).
Proof.
  destruct (predict_starts_from_observed_state (Σ:=Examples.collaborators true)
              Examples.cubic_model Examples.fitted_cubic_model Examples.X4
              Examples.X4 0 3 0.5 0.25 [1; 2; 3]%float
              [0.25; -0.125; -0.25]%float [-0.5; -0.25; 0.125]%float)
    as (p & Hp & Hpredict).
  - vm_compute. reflexivity.
  - reflexivity.
  - reflexivity.
  - vm_compute. reflexivity.
  - vm_compute. reflexivity.
  - assert (Hsome : RollDecay.parameters Examples.fitted_cubic_model
                    = Some (dict_of_zip
                              (RollDecay.parameter_names Examples.cubic_model)
                              (replicate 6 0.5%float)))
      by (vm_compute; reflexivity).
    assert (Hvalue : p = dict_of_zip
                           (RollDecay.parameter_names Examples.cubic_model)
                           (replicate 6 0.5%float))
      by congruence.
    subst p.
    pose (r := returned (OdeResult.mk false [])
                 (Examples.euler_ivp
                    (fun τ states =>
                       RollDecay.roll_decay_time_step Examples.fitted_cubic_model
                         τ states
                         (dict_of_zip
                            (RollDecay.parameter_names Examples.cubic_model)
                            (replicate 6 0.5%float)))
                    ((0 - 0)%float, (3 - 0)%float) [0.5; 0.25]%float
                    (map (fun ti => (ti - 0)%float) [0; 1; 2; 3]%float))).
    pose (row0 := nth 0 (OdeResult.y r) []).
    pose (row1 := nth 1 (OdeResult.y r) []).
    assert (Hr : Examples.euler_ivp
                   (fun τ states =>
                      RollDecay.roll_decay_time_step Examples.fitted_cubic_model
                        τ states
                        (dict_of_zip
                           (RollDecay.parameter_names Examples.cubic_model)
                           (replicate 6 0.5%float)))
                   ((0 - 0)%float, (3 - 0)%float) [0.5; 0.25]%float
                   (map (fun ti => (ti - 0)%float) [0; 1; 2; 3]%float) = ret r)
      by (vm_compute; reflexivity).
    assert (Hy : OdeResult.y r = [row0; row1]) by (vm_compute; reflexivity).
    exists (dict_of_zip (RollDecay.parameter_names Examples.cubic_model)
              (replicate 6 0.5%float)), r, row0, row1.
    split; [exact Hp|]. split; [exact Hr|]. split; [exact Hy|].
    split; [vm_compute; reflexivity|].
    split; [vm_compute; reflexivity|].
    apply Hpredict. exists r, row0, row1.
    split; [exact Hr|].
    split; [vm_compute; reflexivity|].
    split; [rewrite Hy; reflexivity|].
    split; [rewrite Hy; reflexivity|].
    split; [vm_compute; reflexivity|].
    split; [vm_compute; reflexivity|].
    reflexivity.
Defined.

Lemma true_and_prediction_aligned_witness :
  ∃ y_true y_pred : Series.t,
    RollDecay.true_and_prediction (Σ:=Examples.collaborators true)
      Examples.fitted_cubic_model None = ret (y_true, y_pred)
    ∧ Series.index y_true = Series.index y_pred
    ∧ length (Series.values y_pred) = length (Series.index y_pred).
Proof.
  pose (pair := returned (Series.mk [] [], Series.mk [] [])
                  (RollDecay.true_and_prediction (Σ:=Examples.collaborators true)
                     Examples.fitted_cubic_model None)).
  assert (Hpair : RollDecay.true_and_prediction (Σ:=Examples.collaborators true)
                    Examples.fitted_cubic_model None = ret (pair.1, pair.2))
    by (vm_compute; reflexivity).
  exists pair.1, pair.2. split; [exact Hpair|].
  destruct (true_and_prediction_aligned (Σ:=Examples.collaborators true)
              _ _ _ _ Hpair) as (Hidx & Hlen & _).
  split; [exact Hidx|exact Hlen].
Defined.

(** ** The spectral estimate at the edges *)

Section SpectralEdges.
Context {Σ : Collaborators}.

(** What the natural-frequency property needs: a stored frame, else
    [AttributeError]; a column named ['phi'], whatever the roll-angle key is,
    else [KeyError]; and at least one sample, else [ZeroDivisionError] from
    the frequency grid, before any transform is taken. *)
Theorem omega0_input_errors (self : RollDecay.obj) :
  (RollDecay.X self = None →
   RollDecay.omega0 self = raise (AttributeError "X"))
  ∧ (∀ X, RollDecay.X self = Some X →
       DataFrame.columns X !! "phi" = None →
       RollDecay.omega0 self = raise (KeyError "phi"))
  ∧ (∀ X, RollDecay.X self = Some X →
       DataFrame.columns X !! "phi" = Some [] →
       RollDecay.omega0 self = raise ZeroDivisionError)
  ∧ (∀ X x, RollDecay.X self = Some X →
       DataFrame.columns X !! "phi" = Some [] →
       RollDecay.omega_regression self = false →
       RollDecay.named_parameters self x = raise ZeroDivisionError).
Proof.
  unfold RollDecay.named_parameters, RollDecay.omega0, DataFrame.getitem.
  repeat split.
  - intros ->. reflexivity.
  - intros X HX Hphi. rewrite HX. simpl. rewrite Hphi. reflexivity.
  - intros X HX Hphi. rewrite HX. simpl. rewrite Hphi. reflexivity.
  - intros X x HX Hphi Hom. rewrite Hom, HX. simpl. rewrite Hphi. reflexivity.
Qed.

(** A series of one sample has no time step: the mean of no differences is
    [nan], and so is the natural frequency, whatever the sample. *)
Theorem omega0_of_one_sample_is_nan (self : RollDecay.obj) (X : DataFrame.t)
    (t v m : float) :
  RollDecay.X self = Some X →
  DataFrame.index X = [t] →
  DataFrame.columns X !! "phi" = Some [v] →
  rfft_abs [v] = ret [m] →
  RollDecay.omega0 self = ret nan.
Proof.
  intros HX Hidx Hphi Hdft.
  assert (Hget : DataFrame.getitem X "phi" = ret (Series.mk [t] [v])).
  { unfold DataFrame.getitem. rewrite Hphi, Hidx. reflexivity. }
  unfold RollDecay.omega0. rewrite HX.
  unfold RollDecay.getattr, bind, ret. rewrite Hget.
  unfold RollDecay.fft, bind, ret. cbn [Series.values Series.index length np.rfftfreq].
  rewrite Hdft.
  unfold RollDecay.fft_omega0, np.argmax, bind, ret. cbn [fst snd].
  destruct (is_nan m); vm_compute; reflexivity.
Qed.

Lemma is_nan_true (v : float) :
  is_nan v = true → Prim2SF v = S754_nan.
Proof.
  unfold is_nan. rewrite FloatAxioms.eqb_spec. intros Hv.
  destruct (Prim2SF v) as [s|s| |s m e] eqn:Hsf; [| |reflexivity|].
  - discriminate.
  - destruct s; discriminate.
  - exfalso.
    pose proof (SFcompare_key (S754_finite s m e) (S754_finite s m e)) as Hcmp.
    unfold SFeqb in Hv.
    destruct (SFcompare (S754_finite s m e) (S754_finite s m e)) as [[| |]|].
    + discriminate.
    + specialize (Hcmp ltac:(discriminate) ltac:(discriminate)).
      unfold key_lt in Hcmp. lia.
    + specialize (Hcmp ltac:(discriminate) ltac:(discriminate)).
      unfold key_lt in Hcmp. lia.
    + apply Hcmp; discriminate.
Qed.

Lemma leb_nan_l (v mp : float) : is_nan v = true → (v <=? mp)%float = false.
Proof.
  intros Hv%is_nan_true. rewrite FloatAxioms.leb_spec, Hv. reflexivity.
Qed.

Lemma argmax_loop_first_nan (before : list float) (v : float)
    (after : list float) (mp : float) (max_ind i : nat) :
  Forall (fun u => is_nan u = false) before →
  is_nan v = true →
  np.argmax_loop mp max_ind i (before ++ v :: after) = i + length before.
Proof.
  intros Hbefore Hv. revert mp max_ind i.
  induction Hbefore as [|u before Hu _ IH]; intros mp max_ind i; simpl.
  - rewrite (leb_nan_l v mp Hv), Hv. simpl. lia.
  - rewrite Hu. destruct (u <=? mp)%float; simpl; rewrite IH; lia.
Qed.

(** A [nan] among the magnitudes wins the peak search: the estimate is read
    at the first bin whose magnitude is [nan]. *)
Theorem spectral_peak_prefers_nan (frequencies dft : list float) (i : nat)
    (f v : float) :
  dft !! i = Some v →
  is_nan v = true →
  (∀ j u, j < i → dft !! j = Some u → is_nan u = false) →
  frequencies !! i = Some f →
  RollDecay.fft_omega0 frequencies dft = ret (2 * np.pi * f)%float.
Proof.
  intros Hi Hv Hbefore Hf.
  assert (Harg : np.argmax dft = ret i).
  { pose proof (take_drop_middle dft i v Hi) as Hsplit.
    pose proof (lookup_lt_Some _ _ _ Hi) as Hlt.
    assert (Hnan : Forall (fun u => is_nan u = false) (take i dft)).
    { apply Forall_forall. intros u [j Hj]%list_elem_of_lookup.
      pose proof (lookup_lt_Some _ _ _ Hj) as Hjlt.
      rewrite length_take in Hjlt.
      rewrite lookup_take_lt in Hj by lia.
      apply (Hbefore j u); [lia|exact Hj]. }
    rewrite <- Hsplit. unfold np.argmax.
    destruct (take i dft) as [|u before] eqn:Htake.
    - simpl. rewrite Hv.
      assert (i = 0) as ->; [|reflexivity].
      apply (f_equal length) in Htake. rewrite length_take in Htake.
      simpl in Htake. lia.
    - simpl. inversion Hnan as [|? ? Hu Hrest]; subst.
      rewrite Hu, (argmax_loop_first_nan before v _ u 0 1 Hrest Hv).
      apply (f_equal length) in Htake. rewrite length_take in Htake.
      simpl in Htake. f_equal. lia. }
  unfold RollDecay.fft_omega0. rewrite Harg. simpl.
  unfold seq_getitem. rewrite Hf. reflexivity.
Qed.

End SpectralEdges.

Lemma omega0_of_one_sample_is_nan_witness :
  RollDecay.omega0 (Σ:=Examples.collaborators true)
    (RollDecay.set_X (Examples.linear_model "integration" false)
       (DataFrame.mk [2.5%float] (<["phi" := [0.125%float]]> ∅)))
  = ret nan.
Proof.
  apply (omega0_of_one_sample_is_nan (Σ:=Examples.collaborators true) _
           (DataFrame.mk [2.5%float] (<["phi" := [0.125%float]]> ∅))
           2.5 0.125 0.125).
  - reflexivity.
  - reflexivity.
  - vm_compute. reflexivity.
  - reflexivity.
Defined.

Lemma spectral_peak_prefers_nan_witness :
  RollDecay.fft_omega0 [0; 0.25; 0.5]%float [4; nan; 8]%float
  = ret (2 * np.pi * 0.25)%float.
Proof.
  apply (spectral_peak_prefers_nan [0; 0.25; 0.5]%float [4; nan; 8]%float 1
           0.25 nan).
  - reflexivity.
  - reflexivity.
  - intros j u Hj Hu. destruct j as [|j]; [|lia].
    simpl in Hu. injection Hu as <-. reflexivity.
  - reflexivity.
Defined.

(** ** A fixed natural frequency the acceleration function does not take *)

Section FixedFrequencyMisuse.
Context {Σ : Collaborators}.

(** When the natural frequency is fixed and the acceleration function has no
    parameter ['omega0'], the injected value is a name it does not know: a
    derivation residual raises [TypeError], and an integration residual, which
    absorbs the error, predicts infinity at every sample time for every
    trial. *)
Theorem fixed_frequency_needs_omega0_parameter (self : RollDecay.obj)
    (x : list float) (xs : DataFrame.t) (p : gmap string float) :
  RollDecay.omega_regression self = false →
  "omega0" ∉ signature (RollDecay.calculate_acceleration self) →
  RollDecay.named_parameters self x = ret p →
  (RollDecay.fit_method self = "derivation" →
   is_Some (DataFrame.columns xs !! RollDecay.phi_key self) →
   is_Some (DataFrame.columns xs !! RollDecay.phi1d_key self) →
   RollDecay.estimator self x xs
   = raise (TypeError "got an unexpected keyword argument"))
  ∧ (RollDecay.fit_method self = "integration" →
     RollDecay.y_key self = "phi" →
     derivative_taken_first →
     ∀ t0 t_rest phi0 phi_rest,
       DataFrame.index xs = t0 :: t_rest →
       increasing (map (fun ti => (ti - t0)%float) (t0 :: t_rest)) = true →
       DataFrame.columns xs !! RollDecay.phi_key self = Some (phi0 :: phi_rest) →
       RollDecay.estimator self x xs
       = ret (Series.mk (DataFrame.index xs)
                (replicate (length (DataFrame.index xs)) np.inf))).
Proof.
  intros Hom Hout Hp.
  assert (Homega : is_Some (p !! "omega0")).
  { unfold RollDecay.named_parameters in Hp. rewrite Hom in Hp. simpl in Hp.
    destruct (RollDecay.omega0 self) as [e|w]; [discriminate|].
    injection Hp as <-. rewrite lookup_insert_eq. eauto. }
  split.
  - intros Hm [phi Hphi] [phi1d Hphi1d]. unfold RollDecay.estimator.
    rewrite Hp. simpl. rewrite Hm. simpl.
    unfold DataFrame.getitem. rewrite Hphi, Hphi1d. simpl.
    unfold RollDecay.estimator_acceleration, bind_arguments.
    rewrite decide_False by (intros Hex; inversion Hex).
    rewrite decide_True; [reflexivity|].
    apply Exists_exists. exists "omega0". split; [|exact Hout].
    apply elem_of_elements. simpl. rewrite !dom_insert_L.
    apply elem_of_dom in Homega. set_solver.
  - intros Hm Hy Hfirst t0 t_rest phi0 phi_rest Hidx Hinc Hphi.
    assert (Hrow : DataFrame.iloc0_getitem xs (RollDecay.phi_key self) = ret phi0).
    { unfold DataFrame.iloc0_getitem, dict_getitem. rewrite Hidx, Hphi.
      reflexivity. }
    rewrite (estimator_integration_mode self x xs p phi0 Hm Hp Hrow).
    destruct (call_unrecognized (RollDecay.calculate_acceleration self)
                "phi1d" "phi" p "omega0" Homega Hout) as [msg Hcall].
    apply (estimator_integration_absorbs self _ phi0 0 p (TypeError msg) Hy).
    rewrite Hidx.
    destruct (_simulate_initial_state self t0 t_rest phi0 0 p)
      as (tb & Hlast & ->).
    rewrite (Hfirst _ (t0 - t0)%float tb [phi0; 0%float] _ (TypeError msg));
      [reflexivity|reflexivity|exact Hlast|exact Hinc|].
    unfold RollDecay.roll_decay_time_step. simpl. rewrite Hcall. reflexivity.
Qed.

End FixedFrequencyMisuse.

Lemma fixed_frequency_needs_omega0_parameter_witness :
  RollDecay.estimator (Σ:=Examples.collaborators true)
    (RollDecay.set_X (RollDecay.set_omega_regression Examples.cubic_model false)
       Examples.X4) (replicate 6 0.5%float) Examples.X4
  = ret (Series.mk (DataFrame.index Examples.X4)
           (replicate (length (DataFrame.index Examples.X4)) np.inf)).
Proof.
  pose (self := RollDecay.set_X
                  (RollDecay.set_omega_regression Examples.cubic_model false)
                  Examples.X4).
  pose (p := returned ∅
               (RollDecay.named_parameters (Σ:=Examples.collaborators true) self
                  (replicate 6 0.5%float))).
  assert (Hp : RollDecay.named_parameters (Σ:=Examples.collaborators true) self
                 (replicate 6 0.5%float) = ret p) by (vm_compute; reflexivity).
  assert (Hout : "omega0" ∉ signature (RollDecay.calculate_acceleration self))
    by (apply (bool_decide_unpack _); vm_compute; exact I).
  refine (proj2 (fixed_frequency_needs_omega0_parameter
                   (Σ:=Examples.collaborators true) self (replicate 6 0.5%float)
                   Examples.X4 p eq_refl Hout Hp)
            eq_refl eq_refl (euler_ivp_derivative_taken_first true)
            0%float [1; 2; 3]%float 0.5%float [0.25; -0.125; -0.25]%float
            eq_refl _ _); vm_compute; reflexivity.
Defined.

(** ** Additional, dimensional parameters *)

Section AdditionalParameters.
Context {L : EquationLibrary}.

Lemma substring_prefix (s t : string) :
  String.substring 0 (String.length s) (s +:+ t) = s.
Proof.
  induction s as [|c s IH]; simpl.
  - destruct t; reflexivity.
  - rewrite IH. reflexivity.
Qed.

Lemma length_append_char (s t : string) :
  String.length t = 1 → String.length (s +:+ t) = S (String.length s).
Proof.
  intros Ht. induction s as [|a s IH]; simpl; [exact Ht|]. rewrite IH.
  reflexivity.
Qed.

(** [key[0:-1]] takes the last character off. *)
Lemma drop_last_append_char (s t : string) :
  String.length t = 1 → EstimatorCubic.drop_last (s +:+ t) = s.
Proof.
  intros Ht. unfold EstimatorCubic.drop_last.
  rewrite (length_append_char s t Ht). simpl.
  rewrite Nat.sub_0_r. apply substring_prefix.
Qed.

Lemma additional_fold_keys (A44 : float) (l : list (string * float))
    (acc : gmap string float) (key : string) :
  is_Some
    (foldl
       (fun parameters_additional kv =>
          let new_key := EstimatorCubic.drop_last kv.1 in
          match normalize_equations new_key with
          | Some solution => <[new_key := solution kv.2 A44]> parameters_additional
          | None => parameters_additional
          end) acc l !! key) →
  is_Some (acc !! key)
  ∨ ∃ k v, (k, v) ∈ l ∧ key = EstimatorCubic.drop_last k
           ∧ is_Some (normalize_equations key).
Proof.
  revert acc. induction l as [|[k v] l IH]; intros acc; simpl; [auto|].
  intros Hsome. apply IH in Hsome as [Hacc|(k' & v' & Hin & Hkey & Hnorm)].
  - destruct (normalize_equations (EstimatorCubic.drop_last k)) as [sol|] eqn:Hsol.
    + destruct (decide (EstimatorCubic.drop_last k = key)) as [<-|Hne].
      * right. exists k, v. split; [left|]. split; [reflexivity|].
        rewrite Hsol. eauto.
      * rewrite lookup_insert_ne in Hacc by exact Hne. auto.
    + auto.
  - right. exists k', v'. split; [right; exact Hin|]. auto.
Qed.

Lemma additional_fold_lookup (A44 : float) (l : list (string * float))
    (acc : gmap string float) (k0 : string) (v0 : float)
    (sol : float → float → float) :
  NoDup l.*1 →
  (k0, v0) ∈ l →
  normalize_equations (EstimatorCubic.drop_last k0) = Some sol →
  (∀ k v, (k, v) ∈ l →
     EstimatorCubic.drop_last k = EstimatorCubic.drop_last k0 → k = k0) →
  foldl
    (fun parameters_additional kv =>
       let new_key := EstimatorCubic.drop_last kv.1 in
       match normalize_equations new_key with
       | Some solution => <[new_key := solution kv.2 A44]> parameters_additional
       | None => parameters_additional
       end) acc l !! EstimatorCubic.drop_last k0
  = Some (sol v0 A44).
Proof.
  induction l as [|[k v] l IH] using rev_ind; intros Hnodup Hin Hsol Huniq;
    [inversion Hin|].
  rewrite foldl_app. simpl.
  rewrite fmap_app in Hnodup. simpl in Hnodup.
  apply NoDup_app in Hnodup as (Hnodup & Hfresh & _).
  destruct (decide (k = k0)) as [->|Hne].
  - assert (v = v0) as ->.
    { apply elem_of_app in Hin as [Hin|Hin].
      - exfalso. apply (Hfresh k0); [|left].
        apply list_elem_of_fmap. exists (k0, v0). auto.
      - apply list_elem_of_singleton in Hin. congruence. }
    rewrite Hsol. apply lookup_insert_eq.
  - assert (Hin' : (k0, v0) ∈ l).
    { apply elem_of_app in Hin as [Hin|Hin]; [exact Hin|].
      apply list_elem_of_singleton in Hin. congruence. }
    assert (Hkey : EstimatorCubic.drop_last k ≠ EstimatorCubic.drop_last k0).
    { intros Heq. apply Hne. apply (Huniq k v); [|exact Heq].
      apply elem_of_app. right. left. }
    assert (Huniq' : ∀ k' v', (k', v') ∈ l →
              EstimatorCubic.drop_last k' = EstimatorCubic.drop_last k0 → k' = k0).
    { intros k' v' Hk'. apply (Huniq k' v'). apply elem_of_app. left. exact Hk'. }
    pose proof (IH Hnodup Hin' Hsol Huniq') as HIH.
    destruct (normalize_equations (EstimatorCubic.drop_last k)).
    + rewrite lookup_insert_ne by exact Hkey. exact HIH.
    + exact HIH.
Qed.

(** The additional parameters of a fitted model: each comes from a fitted
    coefficient, under the coefficient's name without its last character,
    and only for names that have a normalization equation; a coefficient
    [sym ++ 'A'] whose symbol has one, and which no other coefficient
    shadows, appears under [sym] with the equation's solution at the fitted
    value and [A44]. *)
Theorem additional_parameters_of_fit (self : RollDecay.obj)
    (p : gmap string float) (A44 : float) :
  is_Some (RollDecay.is_fitted_ self) →
  RollDecay.parameters self = Some p →
  ∃ additional : gmap string float,
    EstimatorCubic.calculate_additional_parameters self A44 = ret additional
    ∧ (∀ key, is_Some (additional !! key) →
         ∃ k, is_Some (p !! k) ∧ key = EstimatorCubic.drop_last k
              ∧ is_Some (normalize_equations key))
    ∧ (∀ sym v sol,
         p !! (sym +:+ "A") = Some v →
         normalize_equations sym = Some sol →
         (∀ k, is_Some (p !! k) → EstimatorCubic.drop_last k = sym →
               k = sym +:+ "A") →
         additional !! sym = Some (sol v A44)).
Proof.
  intros [b Hb] Hp. unfold EstimatorCubic.calculate_additional_parameters.
  rewrite (check_is_fitted_after_init self b Hb). simpl. rewrite Hp. simpl.
  eexists. split; [reflexivity|]. split.
  - intros key Hsome.
    apply additional_fold_keys in Hsome as [Hempty|(k & v & Hin & Hkey & Hnorm)].
    + rewrite lookup_empty in Hempty. destruct Hempty; discriminate.
    + exists k. apply elem_of_map_to_list in Hin. split; [eauto|auto].
  - intros sym v sol Hv Hsol Huniq.
    rewrite <- (drop_last_append_char sym "A" eq_refl).
    apply additional_fold_lookup.
    + apply NoDup_fst_map_to_list.
    + apply elem_of_map_to_list. exact Hv.
    + rewrite (drop_last_append_char sym "A" eq_refl). exact Hsol.
    + intros k v' Hin Hdrop.
      rewrite (drop_last_append_char sym "A" eq_refl) in Hdrop.
      apply elem_of_map_to_list in Hin. apply Huniq; eauto.
Qed.

End AdditionalParameters.

Lemma additional_parameters_of_fit_witness :
  ∃ additional : gmap string float,
    EstimatorCubic.calculate_additional_parameters (L:=Examples.equation_library)
      Examples.fitted_cubic_model 8 = ret additional
    ∧ additional !! "B_1" = Some (0.5 * 8)%float.
Proof.
  pose (p := dict_of_zip (RollDecay.parameter_names Examples.cubic_model)
               (replicate 6 0.5%float)).
  assert (Hp : RollDecay.parameters Examples.fitted_cubic_model = Some p)
    by (vm_compute; reflexivity).
  assert (Hflag : RollDecay.is_fitted_ Examples.fitted_cubic_model = Some true)
    by (vm_compute; reflexivity).
  destruct (additional_parameters_of_fit (L:=Examples.equation_library)
              Examples.fitted_cubic_model p 8%float (ex_intro _ true Hflag) Hp)
    as (additional & Hcall & _ & Hvalue).
  exists additional. split; [exact Hcall|].
  apply (Hvalue "B_1" 0.5%float (fun value A44 => (value * A44)%float)).
  - vm_compute. reflexivity.
  - vm_compute. reflexivity.
  - assert (Hall : map_Forall
                     (fun k (_ : float) =>
                        EstimatorCubic.drop_last k = "B_1" → k = "B_1A") p)
      by (apply (bool_decide_unpack _); vm_compute; exact I).
    intros k [v Hk]. exact (Hall k v Hk).
Defined.
